(** * cbdix: the concurrent connectivity probe of [src/lib/core.py]

    A shallow embedding of the probing pipeline: the single-host ICMP probe
    [_ping_single_host], the HTTP validator [_check_single_url_http], the
    per-endpoint checker [check_url_connectivity], the batch orchestrator
    [check_bdix_connectivity], the sequential sweep ([ping_hosts],
    [quick_check], [find_working_urls]) and the driver [handle_run] of
    [src/main.py], followed by their properties.

    Python dicts with a fixed set of keys are records, [None] is [option],
    [float] is the kernel's binary64 float, [len] is a [nat], the [set] of
    pingable hosts is a [gset string].  The network, the [icmplib] and
    [aiohttp] calls and [utils.extract_hostname] are not part of the module:
    they are the fields of an environment [Env] that every function takes.
    Log lines are a side channel and are left out.

    [Env] gives [extract_hostname] as a total function: the batch of URLs
    that the parser accepts.  The module [Raising] embeds the same code with
    [extract_hostname] as a call that may raise, which is the one way a task
    of a batch ends with an exception. *)

From Stdlib Require Import PrimFloat Uint63 ZArith.
From stdpp Require Import gmap strings list.

Open Scope string_scope.
Open Scope list_scope.
Open Scope nat_scope.

(** ** Exceptions *)

(** The classes that the handlers of the module tell apart.  [ICMPLibError]
    stands for an [icmplib] error other than a name lookup failure,
    [Exception] for an instance of no class listed before it.  Signals that
    are not instances of [Exception] (cancellation, interpreter exit) are
    outside the model. *)
Inductive ExcClass :=
  | NameLookupError
  | ICMPLibError
  | ClientError
  | TimeoutError
  | Exception.

(** An exception object: its class and [str(e)]. *)
Record Exc := { exc_class : ExcClass; exc_str : string }.

(** [issubclass]: [NameLookupError] derives from [ICMPLibError], and all
    derive from [Exception]. *)
Definition issubclass (c d : ExcClass) : bool :=
  match d, c with
  | Exception, _ => true
  | NameLookupError, NameLookupError => true
  | ICMPLibError, (NameLookupError | ICMPLibError) => true
  | ClientError, ClientError => true
  | TimeoutError, TimeoutError => true
  | _, _ => false
  end.

Definition isinstance (e : Exc) (d : ExcClass) : bool :=
  issubclass (exc_class e) d.

(** What an awaited call does: it returns a value or raises. *)
Inductive Outcome (A : Type) :=
  | Returns (a : A)
  | Raises (e : Exc).
Arguments Returns {A} a.
Arguments Raises {A} e.

(** A Python number, for the one field that is a [float] on one branch and
    the [int] literal [0] on the other. *)
Inductive Number :=
  | PyInt (z : Z)
  | PyFloat (f : float).

(** [int -> float] conversion of a length.  Below [2^53], far above the
    length of any list, the conversion is exact and [truediv] below is the
    correctly rounded quotient that Python computes. *)
Definition float_of_nat (n : nat) : float :=
  PrimFloat.of_uint63 (Uint63.of_Z (Z.of_nat n)).

(** [a / b] on two lengths: Python's true division. *)
Definition truediv (a b : nat) : float :=
  (float_of_nat a / float_of_nat b)%float.

(** ** Data model *)

(** [icmplib.Host], the value of [async_ping]. *)
Module Host.
Record t := {
  is_alive : bool;
  avg_rtt : float;
  packet_loss : float
}.
End Host.

(** The response of [session.get]: [response.status] and [str(response.url)]. *)
Module Response.
Record t := {
  status : Z;
  url : string
}.
End Response.

(** [aiohttp.ClientSession] as configured by the module: the total timeout
    and the connection limit of its connector. *)
Module ClientSession.
Record t := {
  timeout_total : float;
  connector_limit : Z
}.
End ClientSession.

(** The dict returned by [_ping_single_host]. *)
Module Ping.
Record t := {
  hostname : string;
  is_alive : bool;
  avg_rtt : option float;
  packet_loss : float;
  error : option string
}.
End Ping.

(** The dict returned by [_check_single_url_http]. *)
Module Http.
Record t := {
  url : string;
  http_status : option Z;
  redirects_to : option string;
  is_http_working : bool;
  error : option string
}.
End Http.

(** The dict returned by [check_url_connectivity]. *)
Module Result.
Record t := {
  url : string;
  hostname : string;
  ping_result : Ping.t;
  http_result : option Http.t;
  is_working : bool
}.
End Result.

(** The dict returned by [check_bdix_connectivity]. *)
Module Report.
Record t := {
  total_urls_tested : nat;
  working_urls : list string;
  working_count : nat;
  success_rate : Number;
  total_hosts : nat;
  connectivity_results : list Result.t;
  http_check_enabled : bool
}.
End Report.

(** An element of the [urls] argument: a dict read at its key ["url"]. *)
Record UrlData := { url : string }.

(** ** The environment *)

(** Everything the module calls and does not define.  The first argument of
    the two network calls is the position of the calling task in the batch:
    two tasks for the same URL may see the network behave differently. *)
Record Env := {
  (** [utils.extract_hostname(url)] on URLs it accepts: the core assumes a
      parseable URL.  The call that may raise is the subject of [Raising]
      below. *)
  extract_hostname : string → string;
  (** [await async_ping(hostname, timeout=timeout, count=count)]. *)
  async_ping : nat → string → float → Z → Outcome Host.t;
  (** [async with session.get(url, allow_redirects=...) as response]. *)
  session_get : nat → ClientSession.t → string → bool → Outcome Response.t;
  (** An [Exception] that ends the task of that position outside the handlers
      of the two probes, if any. *)
  task_failure : nat → option Exc
}.

(** ** ICMP prober *)

Definition _ping_single_host (env : Env) (k : nat)
    (hostname : string) (timeout : float) : Ping.t :=
  match async_ping env k hostname timeout 3 with
  | Returns ping_result =>
      {| Ping.hostname := hostname;
         Ping.is_alive := Host.is_alive ping_result;
         Ping.avg_rtt :=
           if Host.is_alive ping_result
           then Some (Host.avg_rtt ping_result) else None;
         Ping.packet_loss := Host.packet_loss ping_result;
         Ping.error := None |}
  | Raises e =>
      if isinstance e NameLookupError then
        {| Ping.hostname := hostname;
           Ping.is_alive := false;
           Ping.avg_rtt := None;
           Ping.packet_loss := 100%float;
           Ping.error := Some "DNS resolution failed" |}
      else if isinstance e ICMPLibError then
        {| Ping.hostname := hostname;
           Ping.is_alive := false;
           Ping.avg_rtt := None;
           Ping.packet_loss := 100%float;
           Ping.error := Some (exc_str e) |}
      else
        {| Ping.hostname := hostname;
           Ping.is_alive := false;
           Ping.avg_rtt := None;
           Ping.packet_loss := 100%float;
           Ping.error := Some ("Unexpected error: " +:+ exc_str e) |}
  end.

(** ** HTTP validator *)

Definition _check_single_url_http (env : Env) (k : nat)
    (session : ClientSession.t) (url : string) (timeout : float) : Http.t :=
  match session_get env k session url true with
  | Returns response =>
      let final_url := Response.url response in
      let redirected := negb (String.eqb url final_url) in
      {| Http.url := url;
         Http.http_status := Some (Response.status response);
         Http.redirects_to := if redirected then Some final_url else None;
         Http.is_http_working := (Response.status response <? 400)%Z;
         Http.error := None |}
  | Raises e =>
      if isinstance e ClientError then
        {| Http.url := url;
           Http.http_status := None;
           Http.redirects_to := None;
           Http.is_http_working := false;
           Http.error := Some ("Connection error: " +:+ exc_str e) |}
      else if isinstance e TimeoutError then
        {| Http.url := url;
           Http.http_status := None;
           Http.redirects_to := None;
           Http.is_http_working := false;
           Http.error := Some "Timeout" |}
      else
        {| Http.url := url;
           Http.http_status := None;
           Http.redirects_to := None;
           Http.is_http_working := false;
           Http.error := Some ("Unexpected error: " +:+ exc_str e) |}
  end.

(** ** Endpoint connectivity checker *)

(** [a and (h and h["is_http_working"])] read as a truth value: a result
    dict is truthy, [None] is falsy. *)
Definition and_http_working (a : bool) (h : option Http.t) : bool :=
  a && match h with
       | Some http_result => Http.is_http_working http_result
       | None => false
       end.

Definition check_url_connectivity (env : Env) (k : nat) (url : string)
    (ping_timeout http_timeout : float)
    (session : option ClientSession.t) : Result.t :=
  let hostname := extract_hostname env url in
  let ping_result := _ping_single_host env k hostname ping_timeout in
  let http_result :=
    if Ping.is_alive ping_result then
      match session with
      | None =>
          let session :=
            {| ClientSession.timeout_total := http_timeout;
               ClientSession.connector_limit := 10 |} in
          Some (_check_single_url_http env k session url http_timeout)
      | Some session =>
          Some (_check_single_url_http env k session url http_timeout)
      end
    else None in
  let is_working := and_http_working (Ping.is_alive ping_result) http_result in
  {| Result.url := url;
     Result.hostname := hostname;
     Result.ping_result := ping_result;
     Result.http_result := http_result;
     Result.is_working := is_working |}.

(** ** Batch orchestrator *)

(** The coroutine of one endpoint as [asyncio.gather] sees it, for a URL that
    [extract_hostname] accepts: it returns the dict of
    [check_url_connectivity], or ends with the exception of [task_failure].
    A task that fails in [extract_hostname] itself is in [Raising]. *)
Definition task (env : Env) (k : nat) (url : string)
    (ping_timeout http_timeout : float)
    (session : option ClientSession.t) : Outcome Result.t :=
  match task_failure env k with
  | Some e => Raises e
  | None =>
      Returns (check_url_connectivity env k url ping_timeout http_timeout session)
  end.

(** [asyncio.gather] over the tasks, with [return_exceptions=True].  Every
    task has a slot at its own position; [sched] lists the positions in the
    order in which the tasks complete, and a completing task stores its
    outcome (value or exception) in its slot.  The awaited value is the list
    of slots once all are filled; [None] when some task never completes. *)
Definition complete {A} (tasks : list (Outcome A))
    (slots : list (option (Outcome A))) (k : nat) : list (option (Outcome A)) :=
  match tasks !! k with
  | Some o => <[k := Some o]> slots
  | None => slots
  end.

Definition gather {A} (tasks : list (Outcome A)) (sched : list nat)
    : option (list (Outcome A)) :=
  mapM id (foldl (complete tasks) (replicate (length tasks) None) sched).

(** The fallback dict built for a task that ended with exception [result],
    for a URL that [extract_hostname] accepts ([Raising.fallback_result] is
    the one whose two calls of [extract_hostname] may raise). *)
Definition fallback_result (env : Env) (url : string) (result : Exc) : Result.t :=
  {| Result.url := url;
     Result.hostname := extract_hostname env url;
     Result.ping_result :=
       {| Ping.hostname := extract_hostname env url;
          Ping.is_alive := false;
          Ping.avg_rtt := None;
          Ping.packet_loss := 100%float;
          Ping.error := Some ("Task failed: " +:+ exc_str result) |};
     Result.http_result := None;
     Result.is_working := false |}.

(** The loop [for i, result in enumerate(connectivity_results)], from
    position [i] on, appending to [processed_results].  [urls[i]] out of
    range would raise: no list is returned then. *)
Fixpoint process_results (env : Env) (urls : list UrlData) (i : nat)
    (connectivity_results : list (Outcome Result.t))
    (processed_results : list Result.t) : option (list Result.t) :=
  match connectivity_results with
  | [] => Some processed_results
  | Raises result :: rest =>
      match urls !! i with
      | Some url_data =>
          process_results env urls (S i) rest
            (processed_results ++ [fallback_result env (url url_data) result])
      | None => None
      end
  | Returns result :: rest =>
      process_results env urls (S i) rest (processed_results ++ [result])
  end.

(** The loop that collects the hostnames of the results whose ping is alive. *)
Definition pingable_hosts (connectivity_results : list Result.t) : gset string :=
  foldl (λ hosts result,
           if Ping.is_alive (Result.ping_result result)
           then {[ Result.hostname result ]} ∪ hosts
           else hosts)
        ∅ connectivity_results.

(** The report built from the processed results. *)
Definition make_report (urls : list UrlData) (check_http : bool)
    (connectivity_results : list Result.t) : Report.t :=
  let working_urls :=
    Result.url <$> List.filter Result.is_working connectivity_results in
  let total_urls := length urls in
  let working_count := length working_urls in
  {| Report.total_urls_tested := total_urls;
     Report.working_urls := working_urls;
     Report.working_count := working_count;
     Report.success_rate :=
       match total_urls with
       | 0 => PyInt 0
       | S _ => PyFloat (truediv working_count total_urls * 100)%float
       end;
     Report.total_hosts := size (pingable_hosts connectivity_results);
     Report.connectivity_results := connectivity_results;
     Report.http_check_enabled := check_http |}.

(** The session shared by the tasks of one batch. *)
Definition shared_session (concurrency : Z) : ClientSession.t :=
  {| ClientSession.timeout_total := 5%float;
     ClientSession.connector_limit := concurrency |}.

(** [check_bdix_connectivity]: [None] when no report is returned. *)
Definition check_bdix_connectivity (env : Env) (urls : list UrlData)
    (timeout : float) (check_http : bool) (concurrency : Z)
    (sched : list nat) : option Report.t :=
  let session := shared_session concurrency in
  let tasks :=
    imap (λ k url_data,
            task env k (url url_data) timeout 5%float (Some session)) urls in
  connectivity_results ← gather tasks sched;
  processed_results ← process_results env urls 0 connectivity_results [];
  Some (make_report urls check_http processed_results).

(** ** Reference views of the report *)

(** The dict that position [k] of the batch contributes: the one its task
    returned, or the fallback built from the exception the task raised. *)
Definition result_of (env : Env) (timeout : float) (concurrency : Z)
    (k : nat) (url_data : UrlData) : Result.t :=
  let session := shared_session concurrency in
  match task env k (url url_data) timeout 5%float (Some session) with
  | Returns result => result
  | Raises e => fallback_result env (url url_data) e
  end.

(** The hostnames of the results whose ping is alive, in order, with
    repetitions. *)
Definition alive_hostnames (connectivity_results : list Result.t) : list string :=
  Result.hostname <$>
    List.filter (λ result, Ping.is_alive (Result.ping_result result))
      connectivity_results.

(** ** A concrete network, for running the model *)

Module Sample.
Definition host_of (u : string) : string :=
  if String.eqb u "http://a.example/x" then "a.example"
  else if String.eqb u "http://a.example/y" then "a.example"
  else if String.eqb u "http://b.example" then "b.example"
  else u.

Definition alive : Host.t :=
  {| Host.is_alive := true; Host.avg_rtt := 12.5%float;
     Host.packet_loss := 0%float |}.

Definition silent : Host.t :=
  {| Host.is_alive := false; Host.avg_rtt := 0%float;
     Host.packet_loss := 1%float |}.

(** Task 0: alive, HTTP 200.  Task 1: alive, HTTP 404 after a redirect.
    Task 2: DNS failure.  Task 3: the task itself fails.  Others: the host
    resolves and never answers. *)
Definition env : Env :=
  {| extract_hostname := host_of;
     async_ping k _ _ _ :=
       match k with
       | 0 | 1 | 3 => Returns alive
       | 2 => Raises {| exc_class := NameLookupError; exc_str := "no such host" |}
       | _ => Returns silent
       end;
     session_get k _ u _ :=
       match k with
       | 0 => Returns {| Response.status := 200; Response.url := u |}
       | 1 => Returns {| Response.status := 404;
                         Response.url := "http://a.example/moved" |}
       | _ => Raises {| exc_class := TimeoutError; exc_str := "" |}
       end;
     task_failure k :=
       match k with
       | 3 => Some {| exc_class := Exception; exc_str := "boom" |}
       | _ => None
       end |}.

Definition urls : list UrlData :=
  [ {| url := "http://a.example/x" |}; {| url := "http://a.example/y" |};
    {| url := "http://b.example" |}; {| url := "http://a.example/x" |} ].

Definition sched : list nat := [2; 0; 3; 1].
End Sample.

(** ** Host sweep *)

(** The loop of [ping_hosts] from the [k]-th probe on, appending to
    [results].  The sweep is sequential: probe [k] is the one for the [k]-th
    hostname. *)
Fixpoint ping_hosts_from (env : Env) (k : nat) (hostnames : list string)
    (timeout : float) (results : list Ping.t) : list Ping.t :=
  match hostnames with
  | [] => results
  | hostname :: rest =>
      let result := _ping_single_host env k hostname timeout in
      ping_hosts_from env (S k) rest timeout (results ++ [result])
  end.

Definition ping_hosts (env : Env) (hostnames : list string)
    (timeout : float) : list Ping.t :=
  ping_hosts_from env 0 hostnames timeout [].

(** The dict returned by [quick_check]. *)
Module Quick.
Record t := {
  total : nat;
  alive : nat;
  success_rate : Number;
  results : list Ping.t
}.
End Quick.

(** [quick_check].  [get_hostnames_from_urls] is [utils]' function of that
    name, which the module imports and does not define. *)
Definition quick_check (env : Env)
    (get_hostnames_from_urls : list UrlData → list string)
    (urls : list UrlData) (timeout : float) : Quick.t :=
  let hostnames := get_hostnames_from_urls urls in
  let results := ping_hosts env hostnames timeout in
  let alive := List.filter Ping.is_alive results in
  let success_rate :=
    match results with
    | [] => PyInt 0
    | _ :: _ => PyFloat (truediv (length alive) (length results) * 100)%float
    end in
  {| Quick.total := length results;
     Quick.alive := length alive;
     Quick.success_rate := success_rate;
     Quick.results := results |}.

(** The loop [for url_data, result in zip(urls, results, strict=True)] of
    [find_working_urls], appending to [working_urls]; [zip] raises a
    [ValueError] when one list ends before the other. *)
Fixpoint collect_alive (urls : list UrlData) (results : list Ping.t)
    (working_urls : list string) : Outcome (list string) :=
  match urls, results with
  | [], [] => Returns working_urls
  | url_data :: urls', result :: results' =>
      collect_alive urls' results'
        (if Ping.is_alive result
         then working_urls ++ [url url_data] else working_urls)
  | [], _ :: _ =>
      Raises {| exc_class := Exception;
                exc_str := "zip() argument 2 is longer than argument 1" |}
  | _ :: _, [] =>
      Raises {| exc_class := Exception;
                exc_str := "zip() argument 2 is shorter than argument 1" |}
  end.

Definition find_working_urls (env : Env)
    (get_hostnames_from_urls : list UrlData → list string)
    (urls : list UrlData) (timeout : float) : Outcome (list string) :=
  let hostnames := get_hostnames_from_urls urls in
  let results := ping_hosts env hostnames timeout in
  collect_alive urls results [].

(** ** Command line driver ([src/main.py]) *)

(** Python's [l[:stop]]: a negative [stop] counts from the end. *)
Definition slice_to {A} (l : list A) (stop : Z) : list A :=
  if (0 <=? stop)%Z then take (Z.to_nat stop) l
  else take (length l - Z.to_nat (- stop)) l.

(** The parsed arguments of [run]: [-l], [-c] and [-v]. *)
Module Args.
Record t := {
  limit : option Z;
  concurrency : Z;
  verbose : bool
}.
End Args.

(** The statement [if args.limit: urls = urls[: args.limit]]: [None] and [0]
    are falsy. *)
Definition limit_urls (urls : list UrlData) (limit : option Z) : list UrlData :=
  match limit with
  | None => urls
  | Some n => if (n =? 0)%Z then urls else slice_to urls n
  end.

(** The value of a number in a comparison with a [float] (the only [int]
    that reaches one is [0]). *)
Definition to_float (x : Number) : float :=
  match x with
  | PyInt z => PrimFloat.of_uint63 (Uint63.of_Z z)
  | PyFloat f => f
  end.

(** The final log line of [handle_run]. *)
Inductive FinalStatus :=
  | NoneWorking
  | SomeWorking
  | AllWorking.

Definition final_status (success_rate : Number) : FinalStatus :=
  if PrimFloat.eqb (to_float success_rate) 0 then NoneWorking
  else if PrimFloat.ltb (to_float success_rate) 100 then SomeWorking
  else AllWorking.

(** What a run that reaches the probe leaves behind: the list it tested, the
    report, the lines written to [working-urls.txt] ([None]: no file is
    written) and the final status.  The lines are those of
    [list(set(working_urls))]; their order is that of the iteration over a
    Python [set], which the program does not choose, and is here the one of
    [elements]. *)
Module Run.
Record t := {
  tested : list UrlData;
  report : Report.t;
  working_urls_file : option (list string);
  final : FinalStatus
}.
End Run.

(** [handle_run], for the list [load_bdix_urls] returned.  The outer [None]:
    the probe never answers; [Some None]: the early return on an empty
    list. *)
Definition handle_run (env : Env) (load_bdix_urls : list UrlData)
    (args : Args.t) (sched : list nat) : option (option Run.t) :=
  let urls := load_bdix_urls in
  match urls with
  | [] => Some None
  | _ :: _ =>
      let urls := limit_urls urls (Args.limit args) in
      result ← check_bdix_connectivity env urls 2%float true
                 (Args.concurrency args) sched;
      let working_urls_deduped :=
        elements (list_to_set (C := gset string) (Report.working_urls result)) in
      let file :=
        match working_urls_deduped with
        | [] => None
        | _ :: _ => Some working_urls_deduped
        end in
      Some (Some {| Run.tested := urls;
                    Run.report := result;
                    Run.working_urls_file := file;
                    Run.final := final_status (Report.success_rate result) |})
  end.

(** ** The batch when [extract_hostname] may raise *)

(** The same code with [utils.extract_hostname] as a call that returns a
    hostname or raises.  With a shared session, that call is the only
    statement of [check_url_connectivity] outside the handlers of the two
    probes (log lines apart), so a task ends with an exception exactly when
    it raises.  [env] gives the two network calls; its fields
    [extract_hostname] and [task_failure] are not consulted here. *)
Module Raising.
Definition check_url_connectivity (env : Env)
    (extract_hostname : string → Outcome string) (k : nat) (url : string)
    (ping_timeout http_timeout : float)
    (session : option ClientSession.t) : Outcome Result.t :=
  match extract_hostname url with
  | Raises e => Raises e
  | Returns hostname =>
      let ping_result := _ping_single_host env k hostname ping_timeout in
      let http_result :=
        if Ping.is_alive ping_result then
          match session with
          | None =>
              let session :=
                {| ClientSession.timeout_total := http_timeout;
                   ClientSession.connector_limit := 10 |} in
              Some (_check_single_url_http env k session url http_timeout)
          | Some session =>
              Some (_check_single_url_http env k session url http_timeout)
          end
        else None in
      let is_working :=
        and_http_working (Ping.is_alive ping_result) http_result in
      Returns {| Result.url := url;
                 Result.hostname := hostname;
                 Result.ping_result := ping_result;
                 Result.http_result := http_result;
                 Result.is_working := is_working |}
  end.

(** The fallback dict literal: it calls [extract_hostname(url)] for its
    ["hostname"] and again for the ["hostname"] of its ["ping_result"], and
    no handler surrounds it. *)
Definition fallback_result (extract_hostname : string → Outcome string)
    (url : string) (result : Exc) : Outcome Result.t :=
  match extract_hostname url with
  | Raises e => Raises e
  | Returns hostname =>
      match extract_hostname url with
      | Raises e => Raises e
      | Returns ping_hostname =>
          Returns
            {| Result.url := url;
               Result.hostname := hostname;
               Result.ping_result :=
                 {| Ping.hostname := ping_hostname;
                    Ping.is_alive := false;
                    Ping.avg_rtt := None;
                    Ping.packet_loss := 100%float;
                    Ping.error := Some ("Task failed: " +:+ exc_str result) |};
               Result.http_result := None;
               Result.is_working := false |}
      end
  end.

(** The loop over the gathered outcomes; an exception of the fallback, or of
    [urls[i]], leaves the loop and the function. *)
Fixpoint process_results (extract_hostname : string → Outcome string)
    (urls : list UrlData) (i : nat)
    (connectivity_results : list (Outcome Result.t))
    (processed_results : list Result.t) : Outcome (list Result.t) :=
  match connectivity_results with
  | [] => Returns processed_results
  | Raises result :: rest =>
      match urls !! i with
      | Some url_data =>
          match fallback_result extract_hostname (url url_data) result with
          | Returns fallback =>
              process_results extract_hostname urls (S i) rest
                (processed_results ++ [fallback])
          | Raises e => Raises e
          end
      | None =>
          Raises {| exc_class := Exception;
                    exc_str := "list index out of range" |}
      end
  | Returns result :: rest =>
      process_results extract_hostname urls (S i) rest
        (processed_results ++ [result])
  end.

(** [check_bdix_connectivity]: [None] when the tasks never all complete,
    [Some (Raises e)] when the call raises [e], [Some (Returns report)] when
    it returns [report]. *)
Definition check_bdix_connectivity (env : Env)
    (extract_hostname : string → Outcome string) (urls : list UrlData)
    (timeout : float) (check_http : bool) (concurrency : Z)
    (sched : list nat) : option (Outcome Report.t) :=
  let session := shared_session concurrency in
  let tasks :=
    imap (λ k url_data,
            check_url_connectivity env extract_hostname k (url url_data)
              timeout 5%float (Some session)) urls in
  connectivity_results ← gather tasks sched;
  Some match process_results extract_hostname urls 0 connectivity_results [] with
       | Returns processed_results =>
           Returns (make_report urls check_http processed_results)
       | Raises e => Raises e
       end.

(** The environment of the total regime that agrees with
    [extract_hostname] wherever it returns; no task fails in it. *)
Definition accepted (extract_hostname : string → Outcome string)
    (url : string) : string :=
  match extract_hostname url with
  | Returns hostname => hostname
  | Raises _ => ""
  end.

Definition total_env (env : Env)
    (extract_hostname : string → Outcome string) : Env :=
  {| extract_hostname := accepted extract_hostname;
     async_ping := async_ping env;
     session_get := session_get env;
     task_failure _ := None |}.

(** A parser that rejects one URL of the sample network, and a batch that
    holds it. *)
Definition sample_hostname (u : string) : Outcome string :=
  if String.eqb u "http://[" then
    Raises {| exc_class := Exception; exc_str := "Invalid IPv6 URL" |}
  else Returns (Sample.host_of u).

Definition sample_urls : list UrlData :=
  [ {| url := "http://a.example/x" |}; {| url := "http://[" |};
    {| url := "http://b.example" |} ].
End Raising.

(** ** More sample data *)

Module Demo.
(** [get_hostnames_from_urls] as one hostname per URL, in order. *)
Definition hostnames_of (urls : list UrlData) : list string :=
  (λ url_data, Sample.host_of (url url_data)) <$> urls.

(** A variant that loses the last hostname. *)
Definition hostnames_short (urls : list UrlData) : list string :=
  take (length urls - 1) (hostnames_of urls).

(** The sample network, answering HTTP differently for the one task whose
    ping fails on a name lookup. *)
Definition env_other_http : Env :=
  {| extract_hostname := extract_hostname Sample.env;
     async_ping := async_ping Sample.env;
     session_get k session u redirects :=
       match k with
       | 2 => Returns {| Response.status := 200; Response.url := u |}
       | _ => session_get Sample.env k session u redirects
       end;
     task_failure := task_failure Sample.env |}.

(** A network on which nothing answers a ping. *)
Definition env_silent : Env :=
  {| extract_hostname := Sample.host_of;
     async_ping _ _ _ _ := Returns Sample.silent;
     session_get k session u redirects :=
       Returns {| Response.status := 200; Response.url := u |};
     task_failure _ := None |}.

Definition args (limit : option Z) : Args.t :=
  {| Args.limit := limit; Args.concurrency := 20; Args.verbose := false |}.
End Demo.

(** * Properties *)

(** ** [asyncio.gather] returns the outcomes in the order of the tasks *)

Section Gather.
Context {A : Type}.
Implicit Types (tasks : list (Outcome A)) (slots : list (option (Outcome A))).

Lemma length_complete tasks slots k :
  length (complete tasks slots k) = length slots.
Proof.
  unfold complete. destruct (tasks !! k); [apply length_insert | done].
Qed.

Lemma length_foldl_complete tasks sched slots :
  length (foldl (complete tasks) slots sched) = length slots.
Proof.
  revert slots. induction sched as [|k sched IH]; intros slots; [done|].
  simpl. rewrite IH. apply length_complete.
Qed.

(** A slot that is filled keeps its value, and the slot of a position of
    the schedule ends up filled. *)
Lemma lookup_foldl_complete tasks sched slots i o :
  length slots = length tasks →
  tasks !! i = Some o →
  i ∈ sched ∨ slots !! i = Some (Some o) →
  foldl (complete tasks) slots sched !! i = Some (Some o).
Proof.
  intros Hlen Hi. revert slots Hlen.
  induction sched as [|k sched IH]; intros slots Hlen Hor; simpl.
  - destruct Hor as [Hin|Hs]; [by apply elem_of_nil in Hin | done].
  - apply IH; [by rewrite length_complete|].
    destruct (decide (i = k)) as [->|Hne].
    + right. unfold complete. rewrite Hi.
      apply list_lookup_insert_eq. rewrite Hlen. by eapply lookup_lt_Some.
    + destruct Hor as [Hin|Hs].
      * left. apply elem_of_cons in Hin as [?|?]; [done|done].
      * right. unfold complete. destruct (tasks !! k); [|done].
        by rewrite list_lookup_insert_ne.
Qed.

Lemma gather_all_done tasks sched :
  (∀ i, i < length tasks → i ∈ sched) →
  gather tasks sched = Some tasks.
Proof.
  intros Hall. unfold gather.
  assert (foldl (complete tasks) (replicate (length tasks) None) sched
          = Some <$> tasks) as ->.
  { apply list_eq. intros i. rewrite list_lookup_fmap.
    destruct (tasks !! i) as [o|] eqn:Hi.
    - apply lookup_foldl_complete; [by rewrite length_replicate | done |].
      left. apply Hall. by eapply lookup_lt_Some.
    - apply lookup_ge_None. rewrite length_foldl_complete, length_replicate.
      by apply lookup_ge_None. }
  by apply mapM_fmap_Some.
Qed.

Lemma gather_permutation tasks sched :
  sched ≡ₚ seq 0 (length tasks) → gather tasks sched = Some tasks.
Proof.
  intros Hperm. apply gather_all_done. intros i Hi.
  rewrite Hperm. apply elem_of_seq. lia.
Qed.
End Gather.

(** ** The loop over the gathered outcomes *)

Lemma process_results_imap env urls prefix suffix acc
    (f : nat → UrlData → Outcome Result.t) :
  urls = prefix ++ suffix →
  process_results env urls (length prefix)
    (imap (λ j, f (length prefix + j)) suffix) acc
  = Some (acc ++ imap (λ j url_data,
            match f (length prefix + j) url_data with
            | Returns result => result
            | Raises e => fallback_result env (url url_data) e
            end) suffix).
Proof.
  revert prefix acc.
  induction suffix as [|url_data suffix IH]; intros prefix acc ->.
  - simpl. by rewrite app_nil_r.
  - rewrite !imap_cons. rewrite Nat.add_0_r.
    assert ((prefix ++ url_data :: suffix) !! length prefix = Some url_data)
      as Hlook by apply list_lookup_middle, eq_refl.
    specialize (IH (prefix ++ [url_data])).
    rewrite length_app in IH. simpl in IH.
    assert (imap ((λ j, f (length prefix + j)) ∘ S) suffix
            = imap (λ j, f (length prefix + 1 + j)) suffix) as ->.
    { apply imap_ext. intros j x _. simpl. f_equal. lia. }
    assert (∀ l : list Result.t, Some ((acc ++ l) ++
        imap (λ j url_data0,
                match f (length prefix + 1 + j) url_data0 with
                | Returns result => result
                | Raises e => fallback_result env (url url_data0) e
                end) suffix)
      = Some (acc ++ l ++
        imap ((λ j url_data0,
                match f (length prefix + j) url_data0 with
                | Returns result => result
                | Raises e => fallback_result env (url url_data0) e
                end) ∘ S) suffix)) as Hassoc.
    { intros l. rewrite <- app_assoc. do 3 f_equal.
      apply imap_ext. intros j x _. simpl.
      by replace (length prefix + S j) with (length prefix + 1 + j) by lia. }
    simpl. destruct (f (length prefix) url_data) as [result|e].
    + replace (S (length prefix)) with (length prefix + 1) by lia.
      rewrite IH; [|by rewrite <- app_assoc]. apply Hassoc.
    + rewrite Hlook.
      replace (S (length prefix)) with (length prefix + 1) by lia.
      rewrite IH; [|by rewrite <- app_assoc]. apply Hassoc.
Qed.

(** The whole call: when every task completes, a report is returned, and it
    is the report of the per-position dicts in input order. *)
Lemma check_bdix_connectivity_returns env urls timeout check_http concurrency sched :
  sched ≡ₚ seq 0 (length urls) →
  check_bdix_connectivity env urls timeout check_http concurrency sched
  = Some (make_report urls check_http
            (imap (result_of env timeout concurrency) urls)).
Proof.
  intros Hperm. unfold check_bdix_connectivity.
  rewrite gather_permutation; [|by rewrite length_imap].
  simpl.
  pose proof (process_results_imap env urls [] urls []
    (λ k url_data, task env k (url url_data) timeout 5%float
       (Some (shared_session concurrency)))
    eq_refl) as Hproc.
  simpl in Hproc. rewrite Hproc. done.
Qed.

(** ** The set of pingable hosts *)

Lemma alive_hostnames_cons result rest :
  alive_hostnames (result :: rest)
  = if Ping.is_alive (Result.ping_result result)
    then Result.hostname result :: alive_hostnames rest
    else alive_hostnames rest.
Proof.
  unfold alive_hostnames. simpl.
  by destruct (Ping.is_alive (Result.ping_result result)).
Qed.

Lemma pingable_hosts_foldl connectivity_results (hosts : gset string) :
  foldl (λ hosts result,
           if Ping.is_alive (Result.ping_result result)
           then {[ Result.hostname result ]} ∪ hosts
           else hosts)
        hosts connectivity_results
  = list_to_set (alive_hostnames connectivity_results) ∪ hosts.
Proof.
  revert hosts.
  induction connectivity_results as [|result rest IH]; intros hosts; simpl.
  - by rewrite (left_id_L ∅ (∪)).
  - rewrite IH, alive_hostnames_cons.
    destruct (Ping.is_alive (Result.ping_result result)); [|done].
    rewrite list_to_set_cons, (assoc_L (∪)).
    by rewrite (comm_L (∪) (list_to_set (alive_hostnames rest))).
Qed.

Lemma pingable_hosts_list_to_set connectivity_results :
  pingable_hosts connectivity_results
  = list_to_set (alive_hostnames connectivity_results).
Proof.
  unfold pingable_hosts. rewrite pingable_hosts_foldl.
  apply (right_id_L ∅ (∪)).
Qed.

Lemma size_list_to_set_remove_dups (l : list string) :
  size (list_to_set (C := gset string) l) = length (remove_dups l).
Proof.
  rewrite <- (size_list_to_set (C := gset string) (remove_dups l))
    by apply NoDup_remove_dups.
  f_equal. apply set_eq. intros x.
  by rewrite !elem_of_list_to_set, elem_of_remove_dups.
Qed.

Lemma length_remove_dups_le (l : list string) :
  length (remove_dups l) ≤ length l.
Proof.
  induction l as [|x l IH]; simpl; [done|].
  case_decide; simpl; lia.
Qed.

Lemma length_alive_hostnames connectivity_results :
  length (alive_hostnames connectivity_results) ≤ length connectivity_results.
Proof.
  unfold alive_hostnames. rewrite length_fmap. apply List.filter_length_le.
Qed.

(** ** The HTTP stage runs exactly when the ping is alive *)

Lemma check_url_connectivity_http env k url ping_timeout http_timeout session :
  let result :=
    check_url_connectivity env k url ping_timeout http_timeout session in
  Result.http_result result = None
  ↔ Ping.is_alive (Result.ping_result result) = false.
Proof.
  unfold check_url_connectivity. simpl.
  destruct (Ping.is_alive (_ping_single_host env k (extract_hostname env url)
                             ping_timeout)); [|done].
  destruct session; split; intros; discriminate.
Qed.

Lemma result_of_http env timeout concurrency k url_data :
  let result := result_of env timeout concurrency k url_data in
  Result.http_result result = None
  ↔ Ping.is_alive (Result.ping_result result) = false.
Proof.
  unfold result_of, task. destruct (task_failure env k); [done|].
  apply check_url_connectivity_http.
Qed.

Lemma result_of_url env timeout concurrency k url_data :
  Result.url (result_of env timeout concurrency k url_data) = url url_data.
Proof.
  unfold result_of, task. by destruct (task_failure env k).
Qed.

Lemma ping_single_host_hostname env k hostname timeout :
  Ping.hostname (_ping_single_host env k hostname timeout) = hostname.
Proof.
  unfold _ping_single_host.
  destruct (async_ping env k hostname timeout 3) as [host|e]; [done|].
  unfold isinstance. by destruct (exc_class e).
Qed.

Lemma check_single_url_http_url env k session url timeout :
  Http.url (_check_single_url_http env k session url timeout) = url.
Proof.
  unfold _check_single_url_http.
  destruct (session_get env k session url true) as [response|e]; [done|].
  unfold isinstance. by destruct (exc_class e).
Qed.

(** The sample schedule completes every task of the sample batch. *)
Lemma sample_sched_complete :
  Sample.sched ≡ₚ seq 0 (length Sample.urls).
Proof.
  unfold Sample.sched. simpl.
  transitivity [0; 2; 3; 1]; [apply perm_swap|].
  apply perm_skip.
  transitivity [2; 1; 3]; [apply perm_skip, perm_swap|].
  apply perm_swap.
Qed.

(** ** The sample batch, run *)

Example sample_report_summary :
  (λ report,
     (Report.total_urls_tested report, Report.working_urls report,
      Report.working_count report, Report.success_rate report,
      Report.total_hosts report, Report.http_check_enabled report))
  <$> check_bdix_connectivity Sample.env Sample.urls 2%float true 20 Sample.sched
  = Some (4, ["http://a.example/x"], 1, PyFloat 25, 1, true).
Proof. vm_compute. reflexivity. Qed.

Example sample_report_errors :
  (λ report,
     (λ result, Ping.error (Result.ping_result result))
     <$> Report.connectivity_results report)
  <$> check_bdix_connectivity Sample.env Sample.urls 2%float true 20 Sample.sched
  = Some [None; None; Some "DNS resolution failed"; Some "Task failed: boom"].
Proof. vm_compute. reflexivity. Qed.

(** A schedule in which a task never completes is never answered. *)
Example sample_pending :
  check_bdix_connectivity Sample.env Sample.urls 2%float true 20 [0; 1; 3] = None.
Proof. vm_compute. reflexivity. Qed.

(** * The properties of the specification *)

(** ** ICMP prober *)

(** C8: when the ICMP exchange raises, [_ping_single_host] returns a dict
    with [is_alive = False], [avg_rtt = None] and [packet_loss = 100.0]; its
    [error] is exactly "DNS resolution failed" for a name lookup failure, the
    library's own message for any other [icmplib] error, and the message
    prefixed with "Unexpected error: " for every other exception. *)
Theorem ping_failure_paths env k hostname timeout e :
  async_ping env k hostname timeout 3 = Raises e →
  let outcome := _ping_single_host env k hostname timeout in
  Ping.hostname outcome = hostname
  ∧ Ping.is_alive outcome = false
  ∧ Ping.avg_rtt outcome = None
  ∧ Ping.packet_loss outcome = 100%float
  ∧ Ping.error outcome =
      Some match exc_class e with
           | NameLookupError => "DNS resolution failed"
           | ICMPLibError => exc_str e
           | ClientError | TimeoutError | Exception =>
               "Unexpected error: " +:+ exc_str e
           end.
Proof.
  intros Hraise. unfold _ping_single_host. rewrite Hraise.
  unfold isinstance. by destruct (exc_class e).
Qed.

Lemma ping_failure_paths_witness :
  async_ping Sample.env 2 "b.example" 2%float 3
    = Raises {| exc_class := NameLookupError; exc_str := "no such host" |}
  ∧ Ping.error (_ping_single_host Sample.env 2 "b.example" 2%float)
    = Some "DNS resolution failed".
Proof.
  split; [reflexivity|].
  exact (proj2 (proj2 (proj2 (proj2
    (ping_failure_paths Sample.env 2 "b.example" 2%float _ eq_refl))))).
Defined.

(** C10: when the ICMP exchange returns, the dict has [error = None]
    whatever [is_alive] is, [packet_loss] is the value the library reported,
    and [avg_rtt] is [None] whenever [is_alive] is false; a dict with
    [is_alive = False], [error = None] and a [packet_loss] other than 100.0
    is a reachable output. *)
Theorem ping_return_path :
  (∀ env k hostname timeout host,
     async_ping env k hostname timeout 3 = Returns host →
     let outcome := _ping_single_host env k hostname timeout in
     Ping.error outcome = None
     ∧ Ping.is_alive outcome = Host.is_alive host
     ∧ Ping.packet_loss outcome = Host.packet_loss host
     ∧ (Ping.is_alive outcome = false → Ping.avg_rtt outcome = None)
     ∧ (Ping.is_alive outcome = true
        → Ping.avg_rtt outcome = Some (Host.avg_rtt host)))
  ∧ (∃ env k hostname timeout,
       let outcome := _ping_single_host env k hostname timeout in
       Ping.is_alive outcome = false
       ∧ Ping.error outcome = None
       ∧ Ping.avg_rtt outcome = None
       ∧ PrimFloat.eqb (Ping.packet_loss outcome) 100 = false).
Proof.
  split.
  - intros env k hostname timeout host Hret.
    unfold _ping_single_host. rewrite Hret. simpl.
    destruct (Host.is_alive host); repeat split; done.
  - exists Sample.env, 4, "c.example", 2%float. by vm_compute.
Qed.

Lemma ping_return_path_witness :
  async_ping Sample.env 4 "c.example" 2%float 3 = Returns Sample.silent
  ∧ Ping.error (_ping_single_host Sample.env 4 "c.example" 2%float) = None
  ∧ Ping.packet_loss (_ping_single_host Sample.env 4 "c.example" 2%float)
    = 1%float.
Proof.
  split; [reflexivity|].
  pose proof (proj1 ping_return_path Sample.env 4 "c.example" 2%float
                Sample.silent eq_refl) as (Herr & _ & Hloss & _).
  exact (conj Herr Hloss).
Defined.

(** ** HTTP validator *)

(** C6: when the GET gets a response, [http_status] is the status of the
    response, [is_http_working] holds exactly when that status is below 400
    (so not for 400, 404 and 500, and for 200, 301 and 302), and
    [redirects_to] is the final URL when it differs from the requested one
    and [None] when it is the same. *)
Theorem http_response_outcome env k session url timeout response :
  session_get env k session url true = Returns response →
  let outcome := _check_single_url_http env k session url timeout in
  let status := Response.status response in
  Http.url outcome = url
  ∧ Http.http_status outcome = Some status
  ∧ Http.error outcome = None
  ∧ (Http.is_http_working outcome = true ↔ (status < 400)%Z)
  ∧ (status ∈ [400; 404; 500]%Z → Http.is_http_working outcome = false)
  ∧ (status ∈ [200; 301; 302]%Z → Http.is_http_working outcome = true)
  ∧ (Response.url response ≠ url
     → Http.redirects_to outcome = Some (Response.url response))
  ∧ (Response.url response = url → Http.redirects_to outcome = None).
Proof.
  intros Hget. unfold _check_single_url_http. rewrite Hget. simpl.
  repeat split; try done.
  - by intros ?%Z.ltb_lt.
  - by intros ?%Z.ltb_lt.
  - intros Hin. apply Z.ltb_ge.
    repeat (apply elem_of_cons in Hin as [->|Hin]; [lia|]).
    by apply elem_of_nil in Hin.
  - intros Hin. apply Z.ltb_lt.
    repeat (apply elem_of_cons in Hin as [->|Hin]; [lia|]).
    by apply elem_of_nil in Hin.
  - intros Hne. destruct (String.eqb_spec url (Response.url response)); [|done].
    by subst.
  - intros Heq. destruct (String.eqb_spec url (Response.url response)); [done|].
    by subst.
Qed.

Lemma http_response_outcome_witness :
  let session := shared_session 20 in
  session_get Sample.env 1 session "http://a.example/y" true
    = Returns {| Response.status := 404;
                 Response.url := "http://a.example/moved" |}
  ∧ Http.http_status
      (_check_single_url_http Sample.env 1 session "http://a.example/y" 5%float)
    = Some 404%Z.
Proof.
  split; [reflexivity|].
  exact (proj1 (proj2
    (http_response_outcome Sample.env 1 _ "http://a.example/y" 5%float _
       eq_refl))).
Defined.

(** ** Endpoint connectivity checker *)

(** C7: in every dict returned by [check_url_connectivity], and so in every
    result of a batch report (fallback dicts included), [http_result] is
    [None] exactly when the ping is not alive: the HTTP stage is skipped
    after a failed ping and runs after every successful one. *)
Theorem http_skipped_iff_ping_failed env :
  (∀ k url ping_timeout http_timeout session,
     let result :=
       check_url_connectivity env k url ping_timeout http_timeout session in
     (Ping.is_alive (Result.ping_result result) = false
      → Result.http_result result = None)
     ∧ (Ping.is_alive (Result.ping_result result) = true
        → is_Some (Result.http_result result)))
  ∧ (∀ urls timeout check_http concurrency sched,
       sched ≡ₚ seq 0 (length urls) →
       ∃ report,
         check_bdix_connectivity env urls timeout check_http concurrency sched
           = Some report
         ∧ Forall (λ result,
                     Result.http_result result = None
                     ↔ Ping.is_alive (Result.ping_result result) = false)
                  (Report.connectivity_results report)).
Proof.
  split.
  - intros k url ping_timeout http_timeout session result.
    destruct (check_url_connectivity_http env k url ping_timeout
                http_timeout session) as [Hnone Hdead].
    fold result in Hnone, Hdead. split; [done|].
    intros Halive. destruct (Result.http_result result) eqn:Hhttp; [done|].
    rewrite Hnone in Halive; done.
  - intros urls timeout check_http concurrency sched Hperm.
    eexists. split; [by apply check_bdix_connectivity_returns|].
    simpl. apply Forall_lookup. intros i result Hi.
    apply list_lookup_imap_Some in Hi as (url_data & _ & ->).
    apply result_of_http.
Qed.

Lemma http_skipped_iff_ping_failed_witness :
  Sample.sched ≡ₚ seq 0 (length Sample.urls)
  ∧ ∃ report,
      check_bdix_connectivity Sample.env Sample.urls 2%float true 20 Sample.sched
        = Some report
      ∧ Forall (λ result,
                  Result.http_result result = None
                  ↔ Ping.is_alive (Result.ping_result result) = false)
               (Report.connectivity_results report).
Proof.
  split; [apply sample_sched_complete|].
  exact (proj2 (http_skipped_iff_ping_failed Sample.env) Sample.urls 2%float
           true 20%Z Sample.sched sample_sched_complete).
Defined.

(** ** Batch orchestrator *)

(** C2: whenever all tasks complete, and in whatever order they do, the
    result at position [i] of the report is the dict of endpoint [i]: the one
    its task returned, or its fallback; it carries the URL of endpoint [i].
    Two completion orders give the same report. *)
Theorem results_in_input_order env urls timeout check_http concurrency sched :
  sched ≡ₚ seq 0 (length urls) →
  ∃ report,
    check_bdix_connectivity env urls timeout check_http concurrency sched
      = Some report
    ∧ (∀ i url_data,
         urls !! i = Some url_data →
         Report.connectivity_results report !! i
           = Some (result_of env timeout concurrency i url_data))
    ∧ Result.url <$> Report.connectivity_results report = url <$> urls
    ∧ ∀ sched',
        sched' ≡ₚ seq 0 (length urls) →
        check_bdix_connectivity env urls timeout check_http concurrency sched'
          = Some report.
Proof.
  intros Hperm. eexists. split; [by apply check_bdix_connectivity_returns|].
  simpl. repeat split.
  - intros i url_data Hi. by rewrite list_lookup_imap, Hi.
  - apply list_eq. intros i.
    rewrite !list_lookup_fmap, list_lookup_imap.
    destruct (urls !! i); [|done]. simpl. by rewrite result_of_url.
  - intros sched' Hperm'. by apply check_bdix_connectivity_returns.
Qed.

Lemma results_in_input_order_witness :
  Sample.sched ≡ₚ seq 0 (length Sample.urls)
  ∧ ∃ report,
      check_bdix_connectivity Sample.env Sample.urls 2%float true 20 Sample.sched
        = Some report
      ∧ Result.url <$> Report.connectivity_results report
        = url <$> Sample.urls.
Proof.
  split; [apply sample_sched_complete|].
  destruct (results_in_input_order Sample.env Sample.urls 2%float true 20%Z
              Sample.sched sample_sched_complete)
    as (report & Hrun & _ & Hurls & _).
  exists report. exact (conj Hrun Hurls).
Defined.

(** C3: in every report, [working_count] is the length of [working_urls] and
    the number of results whose [is_working] is true, and [working_urls] is
    the list of the [url] fields of those results, in the order of the
    results and with repetitions kept. *)
Theorem working_urls_count env urls timeout check_http concurrency sched :
  sched ≡ₚ seq 0 (length urls) →
  ∃ report,
    check_bdix_connectivity env urls timeout check_http concurrency sched
      = Some report
    ∧ Report.working_count report = length (Report.working_urls report)
    ∧ Report.working_count report
      = length (List.filter Result.is_working
                  (Report.connectivity_results report))
    ∧ Report.working_urls report
      = Result.url <$> List.filter Result.is_working
                         (Report.connectivity_results report)
    ∧ Report.working_urls report `sublist_of` (url <$> urls).
Proof.
  intros Hperm. eexists. split; [by apply check_bdix_connectivity_returns|].
  simpl. repeat split.
  - by rewrite length_fmap.
  - assert (Result.url <$> imap (result_of env timeout concurrency) urls
            = url <$> urls) as <-.
    { apply list_eq. intros i.
      rewrite !list_lookup_fmap, list_lookup_imap.
      destruct (urls !! i); [|done]. simpl. by rewrite result_of_url. }
    apply fmap_sublist.
    generalize (imap (result_of env timeout concurrency) urls).
    intros l. induction l as [|x l IH]; simpl; [done|].
    destruct (Result.is_working x); by constructor.
Qed.

Lemma working_urls_count_witness :
  Sample.sched ≡ₚ seq 0 (length Sample.urls)
  ∧ ∃ report,
      check_bdix_connectivity Sample.env Sample.urls 2%float true 20 Sample.sched
        = Some report
      ∧ Report.working_count report = length (Report.working_urls report).
Proof.
  split; [apply sample_sched_complete|].
  destruct (working_urls_count Sample.env Sample.urls 2%float true 20%Z
              Sample.sched sample_sched_complete) as (report & Hrun & Hlen & _).
  exists report. exact (conj Hrun Hlen).
Defined.

(** C4: in every report, [success_rate] is
    [working_count / total_urls_tested * 100] when [total_urls_tested] is
    positive and [0] when it is zero; the empty batch returns a report. *)
Theorem success_rate_guarded env urls timeout check_http concurrency sched :
  sched ≡ₚ seq 0 (length urls) →
  ∃ report,
    check_bdix_connectivity env urls timeout check_http concurrency sched
      = Some report
    ∧ Report.total_urls_tested report = length urls
    ∧ (Report.total_urls_tested report = 0
       → Report.success_rate report = PyInt 0)
    ∧ (0 < Report.total_urls_tested report
       → Report.success_rate report
         = PyFloat (truediv (Report.working_count report)
                      (Report.total_urls_tested report) * 100)%float).
Proof.
  intros Hperm. eexists. split; [by apply check_bdix_connectivity_returns|].
  simpl. repeat split.
  - intros Hzero. by rewrite Hzero.
  - intros Hpos. destruct (length urls); [lia|done].
Qed.

Lemma success_rate_guarded_witness :
  [] ≡ₚ seq 0 (length (@nil UrlData))
  ∧ ∃ report,
      check_bdix_connectivity Sample.env [] 2%float true 20 [] = Some report
      ∧ Report.total_urls_tested report = 0
      ∧ Report.success_rate report = PyInt 0.
Proof.
  split; [reflexivity|].
  destruct (success_rate_guarded Sample.env [] 2%float true 20%Z [] (reflexivity _))
    as (report & Hrun & Htotal & Hzero & _).
  exists report. exact (conj Hrun (conj Htotal (Hzero Htotal))).
Defined.

(** C5: in every report, [total_hosts] is the number of distinct hostnames
    among the results whose ping is alive; it never exceeds
    [total_urls_tested], and a hostname shared by several URLs counts once. *)
Theorem total_hosts_distinct env urls timeout check_http concurrency sched :
  sched ≡ₚ seq 0 (length urls) →
  ∃ report,
    check_bdix_connectivity env urls timeout check_http concurrency sched
      = Some report
    ∧ Report.total_hosts report
      = length (remove_dups
                  (alive_hostnames (Report.connectivity_results report)))
    ∧ Report.total_hosts report ≤ Report.total_urls_tested report.
Proof.
  intros Hperm. eexists. split; [by apply check_bdix_connectivity_returns|].
  simpl. rewrite pingable_hosts_list_to_set, size_list_to_set_remove_dups.
  split; [done|].
  etransitivity; [apply length_remove_dups_le|].
  etransitivity; [apply length_alive_hostnames|].
  by rewrite length_imap.
Qed.

Lemma total_hosts_distinct_witness :
  Sample.sched ≡ₚ seq 0 (length Sample.urls)
  ∧ ∃ report,
      check_bdix_connectivity Sample.env Sample.urls 2%float true 20 Sample.sched
        = Some report
      ∧ Report.total_hosts report ≤ Report.total_urls_tested report.
Proof.
  split; [apply sample_sched_complete|].
  destruct (total_hosts_distinct Sample.env Sample.urls 2%float true 20%Z
              Sample.sched sample_sched_complete) as (report & Hrun & _ & Hle).
  exists report. exact (conj Hrun Hle).
Defined.

(** C9: the reports of two calls that differ only in [check_http] agree on
    every field but [http_check_enabled], which is the argument; with
    [check_http = False] the HTTP probe still runs for every endpoint whose
    ping is alive. *)
Theorem check_http_only_echoed env urls timeout concurrency sched :
  sched ≡ₚ seq 0 (length urls) →
  ∃ enabled disabled,
    check_bdix_connectivity env urls timeout true concurrency sched
      = Some enabled
    ∧ check_bdix_connectivity env urls timeout false concurrency sched
      = Some disabled
    ∧ Report.http_check_enabled enabled = true
    ∧ Report.http_check_enabled disabled = false
    ∧ Report.total_urls_tested enabled = Report.total_urls_tested disabled
    ∧ Report.working_urls enabled = Report.working_urls disabled
    ∧ Report.working_count enabled = Report.working_count disabled
    ∧ Report.success_rate enabled = Report.success_rate disabled
    ∧ Report.total_hosts enabled = Report.total_hosts disabled
    ∧ Report.connectivity_results enabled = Report.connectivity_results disabled
    ∧ ∀ i url_data,
        urls !! i = Some url_data →
        task_failure env i = None →
        Ping.is_alive
          (_ping_single_host env i (extract_hostname env (url url_data)) timeout)
          = true →
        Result.http_result <$> (Report.connectivity_results disabled !! i)
        = Some (Some (_check_single_url_http env i (shared_session concurrency)
                        (url url_data) 5%float)).
Proof.
  intros Hperm. do 2 eexists.
  split; [by apply check_bdix_connectivity_returns|].
  split; [by apply check_bdix_connectivity_returns|].
  simpl. repeat split.
  intros i url_data Hi Hok Halive.
  rewrite list_lookup_imap, Hi. simpl. f_equal.
  unfold result_of, task. rewrite Hok.
  unfold check_url_connectivity. simpl. by rewrite Halive.
Qed.

Lemma check_http_only_echoed_witness :
  Sample.sched ≡ₚ seq 0 (length Sample.urls)
  ∧ ∃ enabled disabled,
      check_bdix_connectivity Sample.env Sample.urls 2%float true 20 Sample.sched
        = Some enabled
      ∧ check_bdix_connectivity Sample.env Sample.urls 2%float false 20
          Sample.sched = Some disabled
      ∧ Report.connectivity_results enabled
        = Report.connectivity_results disabled.
Proof.
  split; [apply sample_sched_complete|].
  destruct (check_http_only_echoed Sample.env Sample.urls 2%float 20%Z
              Sample.sched sample_sched_complete)
    as (enabled & disabled & Hon & Hoff & _ & _ & _ & _ & _ & _ & _ & Hres & _).
  exists enabled, disabled. exact (conj Hon (conj Hoff Hres)).
Defined.

(** * Further properties of the code *)

(** ** The two probes, on every path *)

(** X1: when the GET raises, [_check_single_url_http] returns a dict without
    status and redirect and with [is_http_working = False]; its [error] is
    "Connection error: " and the message for an [aiohttp.ClientError],
    "Timeout" for a [TimeoutError], and "Unexpected error: " and the message
    for every other exception. *)
Theorem http_failure_paths env k session url timeout e :
  session_get env k session url true = Raises e →
  let outcome := _check_single_url_http env k session url timeout in
  Http.url outcome = url
  ∧ Http.http_status outcome = None
  ∧ Http.redirects_to outcome = None
  ∧ Http.is_http_working outcome = false
  ∧ Http.error outcome =
      Some match exc_class e with
           | ClientError => "Connection error: " +:+ exc_str e
           | TimeoutError => "Timeout"
           | NameLookupError | ICMPLibError | Exception =>
               "Unexpected error: " +:+ exc_str e
           end.
Proof.
  intros Hraise. unfold _check_single_url_http. rewrite Hraise.
  unfold isinstance. by destruct (exc_class e).
Qed.

Lemma http_failure_paths_witness :
  session_get Sample.env 3 (shared_session 20) "http://a.example/x" true
    = Raises {| exc_class := TimeoutError; exc_str := "" |}
  ∧ Http.error
      (_check_single_url_http Sample.env 3 (shared_session 20)
         "http://a.example/x" 5%float)
    = Some "Timeout".
Proof.
  split; [reflexivity|].
  exact (proj2 (proj2 (proj2 (proj2
    (http_failure_paths Sample.env 3 (shared_session 20) "http://a.example/x"
       5%float _ eq_refl))))).
Defined.

(** X2: on every path [_check_single_url_http] returns a dict for the
    requested URL in which exactly one of [http_status] and [error] is set;
    [is_http_working] implies a status below 400; a redirect target comes
    only with a status and is never the requested URL itself. *)
Theorem http_outcome_invariant env k session url timeout :
  let outcome := _check_single_url_http env k session url timeout in
  Http.url outcome = url
  ∧ (Http.http_status outcome = None ↔ is_Some (Http.error outcome))
  ∧ (Http.is_http_working outcome = true
     → ∃ status, Http.http_status outcome = Some status ∧ (status < 400)%Z)
  ∧ (is_Some (Http.redirects_to outcome) → is_Some (Http.http_status outcome))
  ∧ Http.redirects_to outcome ≠ Some url.
Proof.
  unfold _check_single_url_http.
  destruct (session_get env k session url true) as [response|e]; simpl.
  - repeat split.
    + discriminate.
    + by intros [? ?].
    + intros ?%Z.ltb_lt. by eexists.
    + by eexists.
    + destruct (String.eqb_spec url (Response.url response)); simpl;
        congruence.
  - assert (∀ msg1 msg2 msg3,
      let outcome :=
        if isinstance e ClientError then
          {| Http.url := url; Http.http_status := None;
             Http.redirects_to := None; Http.is_http_working := false;
             Http.error := Some msg1 |}
        else if isinstance e TimeoutError then
          {| Http.url := url; Http.http_status := None;
             Http.redirects_to := None; Http.is_http_working := false;
             Http.error := Some msg2 |}
        else
          {| Http.url := url; Http.http_status := None;
             Http.redirects_to := None; Http.is_http_working := false;
             Http.error := Some msg3 |} in
      Http.url outcome = url
      ∧ (Http.http_status outcome = None ↔ is_Some (Http.error outcome))
      ∧ (Http.is_http_working outcome = true
         → ∃ status, Http.http_status outcome = Some status ∧ (status < 400)%Z)
      ∧ (is_Some (Http.redirects_to outcome)
         → is_Some (Http.http_status outcome))
      ∧ Http.redirects_to outcome ≠ Some url) as Hall.
    { intros msg1 msg2 msg3.
      destruct (isinstance e ClientError), (isinstance e TimeoutError); simpl;
        (repeat split; [by eexists | discriminate | by intros [? ?]
                       | discriminate]). }
    apply Hall.
Qed.

(** X3: on every path [_ping_single_host] returns a dict for the hostname it
    was given, with [avg_rtt] present exactly when [is_alive] holds; a dict
    with an [error] is never alive and has [packet_loss = 100.0]. *)
Theorem ping_outcome_invariant env k hostname timeout :
  let outcome := _ping_single_host env k hostname timeout in
  Ping.hostname outcome = hostname
  ∧ (Ping.avg_rtt outcome = None ↔ Ping.is_alive outcome = false)
  ∧ (is_Some (Ping.error outcome)
     → Ping.is_alive outcome = false ∧ Ping.packet_loss outcome = 100%float).
Proof.
  unfold _ping_single_host.
  destruct (async_ping env k hostname timeout 3) as [host|e]; simpl.
  - split; [done|]. split; [|by intros [? ?]].
    destruct (Host.is_alive host); split; done.
  - unfold isinstance.
    destruct (exc_class e); simpl; (split; [done|]; split; [split; done | done]).
Qed.

(** ** The verdict of [check_url_connectivity] *)

(** X4: [check_url_connectivity] reports [is_working] exactly when the ping
    is alive and the HTTP probe got a response with a status below 400; a
    working result carries no error from either probe. *)
Theorem is_working_iff env k url ping_timeout http_timeout session :
  let result :=
    check_url_connectivity env k url ping_timeout http_timeout session in
  (Result.is_working result = true
   ↔ Ping.is_alive (Result.ping_result result) = true
     ∧ ∃ http status,
         Result.http_result result = Some http
         ∧ Http.http_status http = Some status ∧ (status < 400)%Z)
  ∧ (Result.is_working result = true
     → Ping.error (Result.ping_result result) = None
       ∧ ∃ http, Result.http_result result = Some http
                 ∧ Http.error http = None).
Proof.
  assert (∀ i s, let http := _check_single_url_http env i s url http_timeout in
    (Http.is_http_working http = true
     ↔ ∃ status, Http.http_status http = Some status ∧ (status < 400)%Z)
    ∧ (Http.is_http_working http = true → Http.error http = None)) as Hhttp.
  { intros i s. unfold _check_single_url_http.
    destruct (session_get env i s url true) as [response|e]; simpl.
    - split; [|done]. split.
      + intros ?%Z.ltb_lt. by eexists.
      + intros (status & [= <-] & ?). by apply Z.ltb_lt.
    - unfold isinstance. destruct (exc_class e); simpl;
        (split; [split; [done | by intros (? & ? & ?)] | done]). }
  assert (∀ i h, let ping := _ping_single_host env i h ping_timeout in
    Ping.is_alive ping = true → Ping.error ping = None) as Hping.
  { intros i h. unfold _ping_single_host.
    destruct (async_ping env i h ping_timeout 3) as [host|e]; simpl; [done|].
    unfold isinstance. destruct (exc_class e); simpl; done. }
  unfold check_url_connectivity. simpl.
  pose proof (Hping k (extract_hostname env url)) as Herr. simpl in Herr.
  destruct (Ping.is_alive (_ping_single_host env k (extract_hostname env url)
                             ping_timeout)) eqn:Halive; simpl.
  - assert (∀ s, let http := _check_single_url_http env k s url http_timeout in
      (Http.is_http_working http = true
       ↔ true = true
         ∧ ∃ http0 status, Some http = Some http0
             ∧ Http.http_status http0 = Some status ∧ (status < 400)%Z)
      ∧ (Http.is_http_working http = true
         → Ping.error (_ping_single_host env k (extract_hostname env url)
                         ping_timeout) = None
           ∧ ∃ http0, Some http = Some http0 ∧ Http.error http0 = None))
      as Hboth.
    { intros s http. destruct (Hhttp k s) as [Hiff Hnone]. fold http in Hiff, Hnone.
      split.
      - rewrite Hiff. split.
        + intros (status & ? & ?). split; [done|]. by exists http, status.
        + intros (_ & http0 & status & [= <-] & ? & ?). by exists status.
      - intros Hw. split; [by apply Herr|]. exists http. split; [done|].
        by apply Hnone. }
    destruct session as [s|]; apply Hboth.
  - split; [|done]. split; [done|]. by intros [? _].
Qed.

(** ** Every result of a batch report *)

Lemma result_of_consistent env timeout concurrency k url_data :
  let result := result_of env timeout concurrency k url_data in
  Result.hostname result = extract_hostname env (url url_data)
  ∧ Ping.hostname (Result.ping_result result) = Result.hostname result
  ∧ (∀ http, Result.http_result result = Some http
             → Http.url http = Result.url result)
  ∧ (Result.is_working result = true
     → Ping.is_alive (Result.ping_result result) = true).
Proof.
  unfold result_of, task. destruct (task_failure env k); simpl; [done|].
  split; [done|]. split.
  { apply ping_single_host_hostname. }
  split.
  - intros http.
    destruct (Ping.is_alive (_ping_single_host env k
                (extract_hostname env (url url_data)) timeout)); [|done].
    intros [= <-]. apply check_single_url_http_url.
  - unfold and_http_working. by intros [? _]%andb_prop.
Qed.

(** X5: in every batch report, fallback results included, each result names
    the hostname extracted from its own URL, its ping dict is for that
    hostname, its HTTP dict (when there is one) is for its URL, and it is
    working only if its ping is alive. *)
Theorem report_results_consistent env urls timeout check_http concurrency sched :
  sched ≡ₚ seq 0 (length urls) →
  ∃ report,
    check_bdix_connectivity env urls timeout check_http concurrency sched
      = Some report
    ∧ Forall (λ result,
        Result.hostname result = extract_hostname env (Result.url result)
        ∧ Ping.hostname (Result.ping_result result) = Result.hostname result
        ∧ (∀ http, Result.http_result result = Some http
                   → Http.url http = Result.url result)
        ∧ (Result.is_working result = true
           → Ping.is_alive (Result.ping_result result) = true))
      (Report.connectivity_results report).
Proof.
  intros Hperm. eexists. split; [by apply check_bdix_connectivity_returns|].
  simpl. apply Forall_lookup. intros i result Hi.
  apply list_lookup_imap_Some in Hi as (url_data & _ & ->).
  destruct (result_of_consistent env timeout concurrency i url_data)
    as (Hhost & Hrest).
  split; [by rewrite result_of_url | exact Hrest].
Qed.

Lemma report_results_consistent_witness :
  Sample.sched ≡ₚ seq 0 (length Sample.urls)
  ∧ ∃ report,
      check_bdix_connectivity Sample.env Sample.urls 2%float true 20 Sample.sched
        = Some report
      ∧ Forall (λ result,
          Ping.hostname (Result.ping_result result) = Result.hostname result)
        (Report.connectivity_results report).
Proof.
  split; [apply sample_sched_complete|].
  destruct (report_results_consistent Sample.env Sample.urls 2%float true 20%Z
              Sample.sched sample_sched_complete) as (report & Hrun & Hall).
  exists report. split; [exact Hrun|].
  eapply Forall_impl; [exact Hall|]. intros result (_ & Hhost & _). exact Hhost.
Defined.

(** Working results are among the alive ones. *)
Lemma working_hosts_alive (results : list Result.t) :
  Forall (λ result, Result.is_working result = true
                    → Ping.is_alive (Result.ping_result result) = true)
         results →
  List.filter Result.is_working results ≠ [] →
  alive_hostnames results ≠ [].
Proof.
  induction 1 as [|result rest Hhead _ IH]; simpl; [done|].
  rewrite alive_hostnames_cons.
  destruct (Result.is_working result) eqn:Hw.
  - intros _. by rewrite Hhead.
  - intros Hrest. destruct (Ping.is_alive (Result.ping_result result)); [done|].
    by apply IH.
Qed.

(** X6: in every batch report, [working_count] is at most
    [total_urls_tested], and a report with a working URL counts at least one
    pingable host: with [total_hosts = 0] the list of working URLs is empty. *)
Theorem working_needs_pingable_host env urls timeout check_http concurrency sched :
  sched ≡ₚ seq 0 (length urls) →
  ∃ report,
    check_bdix_connectivity env urls timeout check_http concurrency sched
      = Some report
    ∧ Report.working_count report ≤ Report.total_urls_tested report
    ∧ (0 < Report.working_count report → 0 < Report.total_hosts report)
    ∧ (Report.total_hosts report = 0 → Report.working_urls report = []).
Proof.
  intros Hperm. eexists. split; [by apply check_bdix_connectivity_returns|].
  simpl. set (results := imap (result_of env timeout concurrency) urls).
  assert (Forall (λ result, Result.is_working result = true
                   → Ping.is_alive (Result.ping_result result) = true)
            results) as Halive.
  { apply Forall_lookup. intros i result Hi.
    apply list_lookup_imap_Some in Hi as (url_data & _ & ->).
    apply result_of_consistent. }
  assert (List.filter Result.is_working results ≠ []
          → 0 < size (pingable_hosts results)) as Hpos.
  { intros Hne. rewrite pingable_hosts_list_to_set, size_list_to_set_remove_dups.
    pose proof (working_hosts_alive results Halive Hne) as Hhosts.
    destruct (alive_hostnames results) as [|h hs] eqn:Heq; [done|].
    assert (h ∈ remove_dups (h :: hs)) as Hin
      by (apply elem_of_remove_dups; left).
    destruct (remove_dups (h :: hs)); [by apply elem_of_nil in Hin|].
    simpl. lia. }
  rewrite length_fmap. split; [|split].
  - etransitivity; [apply List.filter_length_le|].
    unfold results. by rewrite length_imap.
  - intros Hw. apply Hpos. intros Heq. rewrite Heq in Hw. simpl in Hw. lia.
  - intros Hzero.
    destruct (List.filter Result.is_working results) eqn:Heq; [done|].
    assert (0 < size (pingable_hosts results)) by (by apply Hpos). lia.
Qed.

Lemma working_needs_pingable_host_witness :
  Sample.sched ≡ₚ seq 0 (length Sample.urls)
  ∧ ∃ report,
      check_bdix_connectivity Sample.env Sample.urls 2%float true 20 Sample.sched
        = Some report
      ∧ Report.working_count report ≤ Report.total_urls_tested report.
Proof.
  split; [apply sample_sched_complete|].
  destruct (working_needs_pingable_host Sample.env Sample.urls 2%float true
              20%Z Sample.sched sample_sched_complete)
    as (report & Hrun & Hle & _).
  exists report. exact (conj Hrun Hle).
Defined.

(** In the total regime: a batch in which no position has an alive ping
    lists no working URL and no pingable host. *)
Lemma no_alive_ping_report env urls timeout check_http concurrency sched :
  sched ≡ₚ seq 0 (length urls) →
  (∀ i url_data,
     urls !! i = Some url_data →
     is_Some (task_failure env i)
     ∨ Ping.is_alive
         (_ping_single_host env i (extract_hostname env (url url_data)) timeout)
       = false) →
  ∃ report,
    check_bdix_connectivity env urls timeout check_http concurrency sched
      = Some report
    ∧ length (Report.connectivity_results report) = length urls
    ∧ Report.working_urls report = []
    ∧ Report.working_count report = 0
    ∧ Report.total_hosts report = 0.
Proof.
  intros Hperm Hdead. eexists.
  split; [by apply check_bdix_connectivity_returns|].
  simpl. set (results := imap (result_of env timeout concurrency) urls).
  assert (Forall (λ result,
            Ping.is_alive (Result.ping_result result) = false
            ∧ Result.is_working result = false) results) as Hall.
  { apply Forall_lookup. intros i result Hi.
    apply list_lookup_imap_Some in Hi as (url_data & Hi & ->).
    destruct (Hdead i url_data Hi) as [[e He]|Hping];
      unfold result_of, task.
    - by rewrite He.
    - destruct (task_failure env i); [done|].
      unfold check_url_connectivity. simpl. by rewrite Hping. }
  assert (List.filter Result.is_working results = []) as ->.
  { induction Hall as [|result rest [_ Hw] _ IH]; simpl; [done|].
    by rewrite Hw. }
  assert (alive_hostnames results = []) as Hnone.
  { induction Hall as [|result rest [Hp _] _ IH]; [done|].
    by rewrite alive_hostnames_cons, Hp. }
  rewrite pingable_hosts_list_to_set, Hnone.
  unfold results. rewrite length_imap. done.
Qed.

(** ** The HTTP probe of a dead host is never consulted *)

Lemma process_results_ext env1 env2 urls i connectivity_results processed :
  (∀ u, extract_hostname env1 u = extract_hostname env2 u) →
  process_results env1 urls i connectivity_results processed
  = process_results env2 urls i connectivity_results processed.
Proof.
  intros Hhost. revert i processed.
  induction connectivity_results as [|[result|e] rest IH]; intros i processed;
    simpl; [done | apply IH |].
  destruct (urls !! i); [|done].
  unfold fallback_result. rewrite Hhost. apply IH.
Qed.

(** X8: two networks that agree on hostnames, on pings and on task failures,
    and on the HTTP answer for every endpoint whose ping is alive, give the
    same batch report: what a host that failed its ping would answer over
    HTTP has no influence. *)
Theorem http_unused_after_failed_ping env1 env2 urls timeout check_http
    concurrency sched :
  (∀ u, extract_hostname env1 u = extract_hostname env2 u) →
  (∀ k hostname, async_ping env1 k hostname timeout 3
                 = async_ping env2 k hostname timeout 3) →
  (∀ k, task_failure env1 k = task_failure env2 k) →
  (∀ k url_data,
     urls !! k = Some url_data →
     Ping.is_alive
       (_ping_single_host env1 k (extract_hostname env1 (url url_data)) timeout)
     = true →
     session_get env1 k (shared_session concurrency) (url url_data) true
     = session_get env2 k (shared_session concurrency) (url url_data) true) →
  check_bdix_connectivity env1 urls timeout check_http concurrency sched
  = check_bdix_connectivity env2 urls timeout check_http concurrency sched.
Proof.
  intros Hhost Hping Hfail Hget. unfold check_bdix_connectivity.
  assert (imap (λ k url_data, task env1 k (url url_data) timeout 5%float
                   (Some (shared_session concurrency))) urls
          = imap (λ k url_data, task env2 k (url url_data) timeout 5%float
                   (Some (shared_session concurrency))) urls) as ->.
  { apply imap_ext. intros k url_data Hk. simpl.
    unfold task. rewrite Hfail. destruct (task_failure env2 k); [done|].
    f_equal. unfold check_url_connectivity.
    assert (_ping_single_host env1 k (extract_hostname env1 (url url_data)) timeout
            = _ping_single_host env2 k (extract_hostname env2 (url url_data))
                timeout) as Heq.
    { unfold _ping_single_host. by rewrite Hhost, Hping. }
    specialize (Hget k url_data Hk). rewrite Heq in Hget. rewrite Heq, Hhost.
    destruct (Ping.is_alive (_ping_single_host env2 k
                (extract_hostname env2 (url url_data)) timeout)); [|done].
    unfold _check_single_url_http. by rewrite Hget. }
  destruct (gather _ sched) as [connectivity_results|]; [|done]. simpl.
  by rewrite (process_results_ext env1 env2).
Qed.

Lemma http_unused_after_failed_ping_witness :
  check_bdix_connectivity Sample.env Sample.urls 2%float true 20 Sample.sched
  = check_bdix_connectivity Demo.env_other_http Sample.urls 2%float true 20
      Sample.sched.
Proof.
  apply http_unused_after_failed_ping; try reflexivity.
  intros k url_data _ Halive.
  destruct k as [|[|[|k]]]; try reflexivity.
  simpl in Halive. discriminate Halive.
Defined.

(** ** Host sweep *)

Lemma ping_hosts_from_imap env k hostnames timeout results :
  ping_hosts_from env k hostnames timeout results
  = results ++ imap (λ j hostname,
                       _ping_single_host env (k + j) hostname timeout)
                    hostnames.
Proof.
  revert k results.
  induction hostnames as [|hostname rest IH]; intros k results; simpl.
  - by rewrite app_nil_r.
  - rewrite IH, <- app_assoc, Nat.add_0_r. simpl. do 2 f_equal.
    apply imap_ext. intros j h _. simpl. f_equal. lia.
Qed.

Lemma ping_hosts_imap env hostnames timeout :
  ping_hosts env hostnames timeout
  = imap (λ k hostname, _ping_single_host env k hostname timeout) hostnames.
Proof. unfold ping_hosts. by rewrite ping_hosts_from_imap. Qed.

(** X9: [ping_hosts] returns one dict per hostname, in the order of the
    hostnames: the dict at position [k] is the probe of the [k]-th hostname
    and names it. *)
Theorem ping_hosts_in_order env hostnames timeout :
  length (ping_hosts env hostnames timeout) = length hostnames
  ∧ Ping.hostname <$> ping_hosts env hostnames timeout = hostnames
  ∧ ∀ k, ping_hosts env hostnames timeout !! k
         = (λ hostname, _ping_single_host env k hostname timeout)
           <$> hostnames !! k.
Proof.
  rewrite ping_hosts_imap. split; [apply length_imap|]. split.
  - apply list_eq. intros k. rewrite list_lookup_fmap, list_lookup_imap.
    destruct (hostnames !! k) as [hostname|]; [|done]. simpl. f_equal.
    apply ping_single_host_hostname.
  - intros k. apply list_lookup_imap.
Qed.

(** X10: [quick_check] counts every hostname it was given in [total] and the
    alive ones in [alive], so [alive <= total]; without hostnames its
    [success_rate] is the integer [0] and no division takes place, otherwise
    it is [alive / total * 100]. *)
Theorem quick_check_counts env get_hostnames_from_urls urls timeout :
  let summary := quick_check env get_hostnames_from_urls urls timeout in
  Quick.total summary = length (get_hostnames_from_urls urls)
  ∧ Quick.results summary
    = ping_hosts env (get_hostnames_from_urls urls) timeout
  ∧ Quick.alive summary
    = length (List.filter Ping.is_alive (Quick.results summary))
  ∧ Quick.alive summary ≤ Quick.total summary
  ∧ (get_hostnames_from_urls urls = []
     → Quick.total summary = 0 ∧ Quick.alive summary = 0
       ∧ Quick.success_rate summary = PyInt 0)
  ∧ (get_hostnames_from_urls urls ≠ []
     → Quick.success_rate summary
       = PyFloat (truediv (Quick.alive summary) (Quick.total summary) * 100)%float).
Proof.
  unfold quick_check. simpl.
  assert (length (ping_hosts env (get_hostnames_from_urls urls) timeout)
          = length (get_hostnames_from_urls urls)) as Hlen.
  { rewrite ping_hosts_imap. apply length_imap. }
  split; [done|]. split; [done|]. split; [done|].
  split; [apply List.filter_length_le|]. split.
  - intros Hnone. rewrite Hnone. done.
  - intros Hsome.
    destruct (ping_hosts env (get_hostnames_from_urls urls) timeout) eqn:Heq;
      [|done].
    simpl in Hlen. destruct (get_hostnames_from_urls urls); done.
Qed.

Lemma collect_alive_aligned urls results working_urls :
  length urls = length results →
  collect_alive urls results working_urls
  = Returns (working_urls
             ++ ((λ pair, url pair.1)
                 <$> List.filter (λ pair, Ping.is_alive pair.2)
                       (zip urls results))).
Proof.
  revert results working_urls.
  induction urls as [|url_data urls IH]; intros [|result results] working_urls;
    simpl; intros Hlen; try discriminate.
  - by rewrite app_nil_r.
  - rewrite IH by lia.
    destruct (Ping.is_alive result); simpl; [|done]. by rewrite <- app_assoc.
Qed.

Lemma collect_alive_mismatch urls results working_urls :
  length urls ≠ length results →
  ∃ e, collect_alive urls results working_urls = Raises e.
Proof.
  revert results working_urls.
  induction urls as [|url_data urls IH]; intros [|result results] working_urls;
    simpl; intros Hlen; try done; try by eexists.
  apply IH. lia.
Qed.

(** X11: when [get_hostnames_from_urls] gives one hostname per URL,
    [find_working_urls] returns, in the order of [urls] and with repetitions
    kept, the URL of every position whose hostname answered the ping: the
    list is exactly the URLs of the pairs of [zip urls results] whose result
    is alive, so a URL is returned as many times as it has alive positions.
    No HTTP request is involved. *)
Theorem find_working_urls_aligned env get_hostnames_from_urls urls timeout :
  length (get_hostnames_from_urls urls) = length urls →
  ∃ working_urls,
    find_working_urls env get_hostnames_from_urls urls timeout
      = Returns working_urls
    ∧ working_urls
      = (λ pair, url pair.1)
        <$> List.filter (λ pair, Ping.is_alive pair.2)
              (zip urls
                 (ping_hosts env (get_hostnames_from_urls urls) timeout))
    ∧ working_urls `sublist_of` (url <$> urls)
    ∧ ∀ u, u ∈ working_urls
           ↔ ∃ k url_data hostname,
               urls !! k = Some url_data
               ∧ get_hostnames_from_urls urls !! k = Some hostname
               ∧ url url_data = u
               ∧ Ping.is_alive (_ping_single_host env k hostname timeout)
                 = true.
Proof.
  intros Hlen. unfold find_working_urls.
  set (hostnames := get_hostnames_from_urls urls) in *.
  set (results := ping_hosts env hostnames timeout).
  assert (length urls = length results) as Hres.
  { unfold results. rewrite ping_hosts_imap, length_imap. done. }
  eexists. split; [by apply collect_alive_aligned|]. simpl.
  split; [done|]. split.
  - clearbody results. clear -Hres. revert results Hres.
    induction urls as [|url_data urls IH]; intros [|result results] Hres;
      simpl in *; try done.
    destruct (Ping.is_alive result); simpl.
    + apply sublist_skip, IH. lia.
    + apply sublist_cons, IH. lia.
  - intros u. rewrite list_elem_of_fmap. split.
    + intros ([url_data result] & -> & Hin).
      apply list_elem_of_In, List.filter_In in Hin as [Hin Halive].
      apply list_elem_of_In, list_elem_of_lookup in Hin as [k Hk].
      apply lookup_zip_with_Some in Hk as (x & y & [= <- <-] & Hx & Hy).
      unfold results in Hy. rewrite ping_hosts_imap, list_lookup_imap in Hy.
      destruct (hostnames !! k) as [hostname|] eqn:Hh; [|done].
      simpl in Hy. injection Hy as <-. simpl in Halive.
      by exists k, url_data, hostname.
    + intros (k & url_data & hostname & Hk & Hh & <- & Halive).
      exists (url_data, _ping_single_host env k hostname timeout).
      split; [done|].
      apply list_elem_of_In, List.filter_In. split; [|done].
      apply list_elem_of_In, list_elem_of_lookup. exists k.
      apply lookup_zip_with_Some. do 2 eexists. split; [done|]. split; [done|].
      unfold results. by rewrite ping_hosts_imap, list_lookup_imap, Hh.
Qed.

Lemma find_working_urls_aligned_witness :
  length (Demo.hostnames_of Sample.urls) = length Sample.urls
  ∧ ∃ working_urls,
      find_working_urls Sample.env Demo.hostnames_of Sample.urls 2%float
        = Returns working_urls
      ∧ working_urls `sublist_of` (url <$> Sample.urls).
Proof.
  split; [reflexivity|].
  destruct (find_working_urls_aligned Sample.env Demo.hostnames_of Sample.urls
              2%float eq_refl) as (working_urls & Hrun & _ & Hsub & _).
  exists working_urls. exact (conj Hrun Hsub).
Defined.

(** X12: when [get_hostnames_from_urls] gives more or fewer hostnames than
    there are URLs, [find_working_urls] returns no list: the strict [zip]
    raises, after all hostnames were pinged. *)
Theorem find_working_urls_mismatch env get_hostnames_from_urls urls timeout :
  length (get_hostnames_from_urls urls) ≠ length urls →
  ∃ e, find_working_urls env get_hostnames_from_urls urls timeout = Raises e.
Proof.
  intros Hlen. unfold find_working_urls. apply collect_alive_mismatch.
  rewrite ping_hosts_imap, length_imap. congruence.
Qed.

Lemma find_working_urls_mismatch_witness :
  length (Demo.hostnames_short Sample.urls) ≠ length Sample.urls
  ∧ ∃ e, find_working_urls Sample.env Demo.hostnames_short Sample.urls 2%float
         = Raises e.
Proof.
  assert (length (Demo.hostnames_short Sample.urls) ≠ length Sample.urls)
    as Hne by (simpl; lia).
  split; [exact Hne|].
  exact (find_working_urls_mismatch Sample.env Demo.hostnames_short Sample.urls
           2%float Hne).
Defined.

(** ** Command line driver *)

Lemma slice_to_prefix {A} (l : list A) (stop : Z) : slice_to l stop `prefix_of` l.
Proof. unfold slice_to. destruct (0 <=? stop)%Z; apply prefix_take. Qed.

Lemma limit_urls_prefix urls limit : limit_urls urls limit `prefix_of` urls.
Proof.
  unfold limit_urls. destruct limit as [n|]; [|done].
  destruct (n =? 0)%Z; [done | apply slice_to_prefix].
Qed.

(** A run on a non-empty list whose probes all complete. *)
Lemma handle_run_returns env loaded args sched :
  loaded ≠ [] →
  sched ≡ₚ seq 0 (length (limit_urls loaded (Args.limit args))) →
  ∃ report,
    check_bdix_connectivity env (limit_urls loaded (Args.limit args)) 2%float
      true (Args.concurrency args) sched = Some report
    ∧ Report.total_urls_tested report
      = length (limit_urls loaded (Args.limit args))
    ∧ Report.http_check_enabled report = true
    ∧ handle_run env loaded args sched
      = Some (Some
          {| Run.tested := limit_urls loaded (Args.limit args);
             Run.report := report;
             Run.working_urls_file :=
               let lines :=
                 elements (list_to_set (C := gset string)
                             (Report.working_urls report)) in
               match lines with
               | [] => None
               | _ :: _ => Some lines
               end;
             Run.final := final_status (Report.success_rate report) |}).
Proof.
  intros Hne Hperm. eexists.
  split; [by apply check_bdix_connectivity_returns|].
  split; [done|]. split; [done|].
  unfold handle_run. destruct loaded as [|url_data loaded]; [done|].
  by rewrite check_bdix_connectivity_returns.
Qed.

(** X13: [handle_run] on a non-empty list tests a prefix of the loaded list
    with HTTP validation enabled: the whole list without [-l] and with
    [-l 0], the first [n] entries with [-l n] for a positive [n], and the
    list without its last [-n] entries for a negative [n]. *)
Theorem handle_run_limit env loaded args sched :
  loaded ≠ [] →
  sched ≡ₚ seq 0 (length (limit_urls loaded (Args.limit args))) →
  ∃ run,
    handle_run env loaded args sched = Some (Some run)
    ∧ Run.tested run `prefix_of` loaded
    ∧ Report.total_urls_tested (Run.report run) = length (Run.tested run)
    ∧ Report.http_check_enabled (Run.report run) = true
    ∧ (Args.limit args = None ∨ Args.limit args = Some 0%Z
       → Run.tested run = loaded)
    ∧ (∀ n, Args.limit args = Some n → (0 < n)%Z
            → Run.tested run = take (Z.to_nat n) loaded)
    ∧ (∀ n, Args.limit args = Some n → (n < 0)%Z
            → Run.tested run = take (length loaded - Z.to_nat (- n)) loaded).
Proof.
  intros Hne Hperm.
  destruct (handle_run_returns env loaded args sched Hne Hperm)
    as (report & _ & Htotal & Hhttp & Hrun).
  eexists. split; [exact Hrun|]. simpl.
  split; [apply limit_urls_prefix|]. split; [done|]. split; [done|].
  unfold limit_urls, slice_to. repeat split.
  - by intros [->| ->].
  - intros n -> Hn.
    destruct (Z.eqb_spec n 0); [lia|]. destruct (Z.leb_spec 0 n); [done|lia].
  - intros n -> Hn.
    destruct (Z.eqb_spec n 0); [lia|]. destruct (Z.leb_spec 0 n); [lia|done].
Qed.

Lemma handle_run_limit_witness :
  Sample.urls ≠ []
  ∧ [1; 0] ≡ₚ seq 0 (length (limit_urls Sample.urls (Some 2%Z)))
  ∧ ∃ run,
      handle_run Sample.env Sample.urls (Demo.args (Some 2%Z)) [1; 0]
        = Some (Some run)
      ∧ Run.tested run = take 2 Sample.urls.
Proof.
  assert (Sample.urls ≠ []) as Hne by discriminate.
  assert ([1; 0] ≡ₚ seq 0 (length (limit_urls Sample.urls (Some 2%Z))))
    as Hperm by apply perm_swap.
  split; [exact Hne|]. split; [exact Hperm|].
  destruct (handle_run_limit Sample.env Sample.urls (Demo.args (Some 2%Z))
              [1; 0] Hne Hperm)
    as (run & Hrun & _ & _ & _ & _ & Hpos & _).
  exists run. split; [exact Hrun|].
  exact (Hpos 2%Z eq_refl (Z.lt_0_2)).
Defined.

(** X14: [handle_run] writes [working-urls.txt] exactly when the report has
    a working URL; the lines it writes are the working URLs of the report,
    each once, so there are at most [working_count] of them. *)
Theorem handle_run_file env loaded args sched :
  loaded ≠ [] →
  sched ≡ₚ seq 0 (length (limit_urls loaded (Args.limit args))) →
  ∃ run,
    handle_run env loaded args sched = Some (Some run)
    ∧ (Run.working_urls_file run = None
       ↔ Report.working_urls (Run.report run) = [])
    ∧ ∀ lines,
        Run.working_urls_file run = Some lines →
        NoDup lines
        ∧ (∀ u, u ∈ lines ↔ u ∈ Report.working_urls (Run.report run))
        ∧ length lines ≤ Report.working_count (Run.report run).
Proof.
  intros Hne Hperm.
  destruct (handle_run_returns env loaded args sched Hne Hperm)
    as (report & Hcheck & _ & _ & Hrun).
  assert (Report.working_count report = length (Report.working_urls report))
    as Hcount.
  { rewrite check_bdix_connectivity_returns in Hcheck by done.
    by injection Hcheck as <-. }
  eexists. split; [exact Hrun|]. simpl.
  set (working := Report.working_urls report) in *.
  set (lines := elements (list_to_set (C := gset string) working)).
  assert (NoDup lines) as Hnodup by apply NoDup_elements.
  assert (∀ u, u ∈ lines ↔ u ∈ working) as Hmem.
  { intros u. unfold lines. by rewrite elem_of_elements, elem_of_list_to_set. }
  assert (length lines ≤ length working) as Hlen.
  { unfold lines.
    change (size (list_to_set (C := gset string) working) ≤ length working).
    rewrite size_list_to_set_remove_dups. apply length_remove_dups_le. }
  clearbody lines. split.
  - destruct lines as [|line lines]; destruct working as [|u working];
      try done; split; try done.
    + intros _. assert (u ∈ @nil string) as Hin by (apply Hmem; left).
      by apply elem_of_nil in Hin.
    + intros _. assert (line ∈ @nil string) as Hin by (apply Hmem; left).
      by apply elem_of_nil in Hin.
  - intros lines' Hfile. destruct lines as [|line lines]; [done|].
    injection Hfile as <-. rewrite Hcount. done.
Qed.

Lemma handle_run_file_witness :
  Sample.urls ≠ []
  ∧ Sample.sched ≡ₚ seq 0 (length (limit_urls Sample.urls None))
  ∧ ∃ run,
      handle_run Sample.env Sample.urls (Demo.args None) Sample.sched
        = Some (Some run)
      ∧ (Run.working_urls_file run = None
         ↔ Report.working_urls (Run.report run) = []).
Proof.
  assert (Sample.urls ≠ []) as Hne by discriminate.
  split; [exact Hne|]. split; [exact sample_sched_complete|].
  destruct (handle_run_file Sample.env Sample.urls (Demo.args None)
              Sample.sched Hne sample_sched_complete) as (run & Hrun & Hiff & _).
  exists run. exact (conj Hrun Hiff).
Defined.

(** X15: [handle_run] probes nothing in two cases.  On an empty loaded list
    it returns at once.  With a negative [-l] that reaches past the start of
    a non-empty list it runs the batch on no URL at all: the report counts
    zero URLs, no file is written and the final status is the one of a run
    in which nothing works. *)
Theorem handle_run_nothing_tested env args :
  (∀ sched, handle_run env [] args sched = Some None)
  ∧ ∀ loaded n,
      loaded ≠ [] →
      Args.limit args = Some n →
      (n ≤ - Z.of_nat (length loaded))%Z →
      ∃ run,
        handle_run env loaded args [] = Some (Some run)
        ∧ Run.tested run = []
        ∧ Report.total_urls_tested (Run.report run) = 0
        ∧ Report.connectivity_results (Run.report run) = []
        ∧ Report.success_rate (Run.report run) = PyInt 0
        ∧ Run.working_urls_file run = None
        ∧ Run.final run = NoneWorking.
Proof.
  split; [done|]. intros loaded n Hne Hlimit Hn.
  assert (limit_urls loaded (Args.limit args) = []) as Hnil.
  { rewrite Hlimit. unfold limit_urls, slice_to.
    destruct (Z.eqb_spec n 0); [destruct loaded; [done | simpl in Hn; lia]|].
    destruct (Z.leb_spec 0 n); [lia|].
    replace (length loaded - Z.to_nat (- n)) with 0 by lia. done. }
  unfold handle_run. destruct loaded as [|url_data loaded]; [done|].
  rewrite Hnil. eexists. split; [reflexivity|]. done.
Qed.

Lemma handle_run_nothing_tested_witness :
  Sample.urls ≠ []
  ∧ (-4 ≤ - Z.of_nat (length Sample.urls))%Z
  ∧ ∃ run,
      handle_run Sample.env Sample.urls (Demo.args (Some (-4)%Z)) []
        = Some (Some run)
      ∧ Run.tested run = []
      ∧ Run.final run = NoneWorking.
Proof.
  assert (Sample.urls ≠ []) as Hne by discriminate.
  assert (-4 ≤ - Z.of_nat (length Sample.urls))%Z as Hn by (simpl; lia).
  split; [exact Hne|]. split; [exact Hn|].
  destruct (proj2 (handle_run_nothing_tested Sample.env
                     (Demo.args (Some (-4)%Z)))
              Sample.urls (-4)%Z Hne eq_refl Hn)
    as (run & Hrun & Htested & _ & _ & _ & _ & Hfinal).
  exists run. exact (conj Hrun (conj Htested Hfinal)).
Defined.

(** ** Where a working URL comes from *)

Lemma result_of_working env timeout concurrency k url_data :
  Result.is_working (result_of env timeout concurrency k url_data) = true
  ↔ task_failure env k = None
    ∧ Ping.is_alive
        (_ping_single_host env k (extract_hostname env (url url_data)) timeout)
      = true
    ∧ ∃ response,
        session_get env k (shared_session concurrency) (url url_data) true
          = Returns response
        ∧ (Response.status response < 400)%Z.
Proof.
  unfold result_of, task.
  destruct (task_failure env k) as [e|]; simpl.
  { split; [done | by intros [? _]]. }
  destruct (Ping.is_alive (_ping_single_host env k
              (extract_hostname env (url url_data)) timeout)); simpl.
  - unfold _check_single_url_http.
    destruct (session_get env k (shared_session concurrency) (url url_data) true)
      as [response|e]; simpl.
    + split.
      * intros ?%Z.ltb_lt. split; [done|]. split; [done|]. by exists response.
      * intros (_ & _ & response' & [= <-] & ?). by apply Z.ltb_lt.
    + unfold isinstance. destruct (exc_class e); simpl;
        (split; [done | by intros (_ & _ & ? & ? & _)]).
  - split; [done | by intros (_ & ? & _)].
Qed.

(** X16: a URL is in [working_urls] of a batch report exactly when it is the
    URL of an endpoint whose task did not fail, whose host answered the ping
    and whose GET got a response with a status below 400. *)
Theorem working_url_provenance env urls timeout check_http concurrency sched :
  sched ≡ₚ seq 0 (length urls) →
  ∃ report,
    check_bdix_connectivity env urls timeout check_http concurrency sched
      = Some report
    ∧ ∀ u,
        u ∈ Report.working_urls report
        ↔ ∃ k url_data,
            urls !! k = Some url_data
            ∧ url url_data = u
            ∧ task_failure env k = None
            ∧ Ping.is_alive
                (_ping_single_host env k (extract_hostname env (url url_data))
                   timeout) = true
            ∧ ∃ response,
                session_get env k (shared_session concurrency) (url url_data)
                  true = Returns response
                ∧ (Response.status response < 400)%Z.
Proof.
  intros Hperm. eexists. split; [by apply check_bdix_connectivity_returns|].
  simpl. intros u. rewrite list_elem_of_fmap. split.
  - intros (result & -> & Hin).
    apply list_elem_of_In, List.filter_In in Hin as [Hin Hw].
    apply list_elem_of_In, list_elem_of_lookup in Hin as [k Hk].
    apply list_lookup_imap_Some in Hk as (url_data & Hk & ->).
    exists k, url_data. split; [done|]. split; [by rewrite result_of_url|].
    by apply result_of_working.
  - intros (k & url_data & Hk & <- & Hrest).
    exists (result_of env timeout concurrency k url_data).
    split; [by rewrite result_of_url|].
    apply list_elem_of_In, List.filter_In. split.
    + apply list_elem_of_In, list_elem_of_lookup. exists k.
      by rewrite list_lookup_imap, Hk.
    + by apply result_of_working.
Qed.

Lemma working_url_provenance_witness :
  Sample.sched ≡ₚ seq 0 (length Sample.urls)
  ∧ ∃ report,
      check_bdix_connectivity Sample.env Sample.urls 2%float true 20 Sample.sched
        = Some report
      ∧ "http://a.example/x" ∈ Report.working_urls report.
Proof.
  split; [apply sample_sched_complete|].
  destruct (working_url_provenance Sample.env Sample.urls 2%float true 20%Z
              Sample.sched sample_sched_complete) as (report & Hrun & Hiff).
  exists report. split; [exact Hrun|].
  apply Hiff. exists 0, {| url := "http://a.example/x" |}.
  split; [reflexivity|]. split; [reflexivity|]. split; [reflexivity|].
  split; [reflexivity|]. eexists. split; [reflexivity|]. reflexivity.
Defined.

(** Repetitions are kept: the sample batch lists one URL twice, and both of
    its positions answer the ping. *)
Example find_working_urls_keeps_repetitions :
  find_working_urls Sample.env Demo.hostnames_of Sample.urls 2%float
  = Returns ["http://a.example/x"; "http://a.example/y"; "http://a.example/x"].
Proof. vm_compute. reflexivity. Qed.

(** ** The batch when [extract_hostname] may raise *)

Lemma raising_task_returns env extract_hostname k url ping_timeout http_timeout
    session hostname :
  extract_hostname url = Returns hostname →
  Raising.check_url_connectivity env extract_hostname k url ping_timeout
    http_timeout session
  = Returns (check_url_connectivity (Raising.total_env env extract_hostname)
               k url ping_timeout http_timeout session).
Proof.
  intros Hhost. unfold Raising.check_url_connectivity, check_url_connectivity.
  simpl. unfold Raising.accepted. rewrite Hhost. reflexivity.
Qed.



(** The loop over the outcomes of tasks that all returned. *)
Lemma raising_process_returned extract_hostname urls i results processed :
  Raising.process_results extract_hostname urls i (Returns <$> results) processed
  = Returns (processed ++ results).
Proof.
  revert i processed.
  induction results as [|result results IH]; intros i processed; simpl.
  - by rewrite app_nil_r.
  - by rewrite IH, <- app_assoc.
Qed.


(** When [extract_hostname] returns for every URL of the batch, the call
    returns the report of the total regime. *)
Lemma raising_check_returns env extract_hostname urls timeout check_http
    concurrency sched :
  sched ≡ₚ seq 0 (length urls) →
  (∀ url_data, url_data ∈ urls
               → ∃ hostname, extract_hostname (url url_data) = Returns hostname) →
  ∃ report,
    Raising.check_bdix_connectivity env extract_hostname urls timeout check_http
      concurrency sched = Some (Returns report)
    ∧ check_bdix_connectivity (Raising.total_env env extract_hostname) urls
        timeout check_http concurrency sched = Some report.
Proof.
  intros Hperm Hall. eexists.
  split; [|by apply check_bdix_connectivity_returns].
  unfold Raising.check_bdix_connectivity.
  rewrite gather_permutation; [|by rewrite length_imap]. simpl.
  assert (imap (λ k url_data,
                  Raising.check_url_connectivity env extract_hostname k
                    (url url_data) timeout 5%float
                    (Some (shared_session concurrency))) urls
          = Returns <$> imap (result_of (Raising.total_env env extract_hostname)
                                timeout concurrency) urls) as ->.
  { apply list_eq. intros k. rewrite list_lookup_fmap, !list_lookup_imap.
    destruct (urls !! k) as [url_data|] eqn:Hk; [|done]. simpl. f_equal.
    destruct (Hall url_data) as [hostname Hhost].
    { apply list_elem_of_lookup. by exists k. }
    by rewrite (raising_task_returns _ _ _ _ _ _ _ hostname Hhost). }
  by rewrite raising_process_returned.
Qed.





(** The failing batch, run: one URL of three is rejected by the parser, and
    the call raises the parser's exception instead of returning a report with
    three results. *)
Example failed_task_run :
  Raising.check_bdix_connectivity Sample.env Raising.sample_hostname
    Raising.sample_urls 2%float true 20 [1; 0; 2]
  = Some (Raises {| exc_class := Exception; exc_str := "Invalid IPv6 URL" |}).
Proof. vm_compute. reflexivity. Qed.

(** X7: when [extract_hostname] returns for every URL of the batch and no
    host answers the ping, the call returns a report with one result per
    endpoint that lists no working URL and no pingable host. *)
Theorem nothing_alive_nothing_working env extract_hostname urls timeout
    check_http concurrency sched :
  sched ≡ₚ seq 0 (length urls) →
  (∀ i url_data,
     urls !! i = Some url_data →
     ∃ hostname,
       extract_hostname (url url_data) = Returns hostname
       ∧ Ping.is_alive (_ping_single_host env i hostname timeout) = false) →
  ∃ report,
    Raising.check_bdix_connectivity env extract_hostname urls timeout check_http
      concurrency sched = Some (Returns report)
    ∧ length (Report.connectivity_results report) = length urls
    ∧ Report.working_urls report = []
    ∧ Report.working_count report = 0
    ∧ Report.total_hosts report = 0.
Proof.
  intros Hperm Hdead.
  destruct (raising_check_returns env extract_hostname urls timeout check_http
              concurrency sched Hperm) as (report & Hcall & Htotal).
  { intros url_data [i Hi]%list_elem_of_lookup.
    destruct (Hdead i url_data Hi) as (hostname & Hhost & _). by exists hostname. }
  destruct (no_alive_ping_report (Raising.total_env env extract_hostname) urls
              timeout check_http concurrency sched Hperm)
    as (report' & Htotal' & Hrest).
  { intros i url_data Hi. right.
    destruct (Hdead i url_data Hi) as (hostname & Hhost & Hping).
    simpl. unfold Raising.accepted. rewrite Hhost. exact Hping. }
  rewrite Htotal in Htotal'. injection Htotal' as <-.
  exists report. by split.
Qed.

Lemma nothing_alive_nothing_working_witness :
  Sample.sched ≡ₚ seq 0 (length Sample.urls)
  ∧ ∃ report,
      Raising.check_bdix_connectivity Demo.env_silent
        (λ u, Returns (Sample.host_of u)) Sample.urls 2%float true 20
        Sample.sched = Some (Returns report)
      ∧ Report.working_urls report = []
      ∧ Report.total_hosts report = 0.
Proof.
  split; [apply sample_sched_complete|].
  destruct (nothing_alive_nothing_working Demo.env_silent
              (λ u, Returns (Sample.host_of u)) Sample.urls 2%float true 20%Z
              Sample.sched sample_sched_complete
              (λ i url_data _,
                 ex_intro _ (Sample.host_of (url url_data))
                   (conj eq_refl eq_refl)))
    as (report & Hrun & _ & Hurls & _ & Hhosts).
  exists report. exact (conj Hrun (conj Hurls Hhosts)).
Defined.


